(** * libmamba/src/core/util_os.cpp: OS introspection layer

    A shallow embedding of [mamba::util_os] together with the properties its
    specification states about it.  The operating system, the environment,
    the registry and the subprocess runner are capabilities of a [Host];
    the functions run in a small state-and-exception monad that records
    every externally visible action in a trace. *)

From Stdlib Require Import Bool Arith ZArith NArith Lia List.
From Stdlib Require Import Strings.Ascii Strings.String.
From Stdlib Require Import Numbers.DecimalString.
Import ListNotations.

Open Scope string_scope.
Open Scope list_scope.

(** ** Characters and strings *)

Module Chars.

Definition in_range (lo hi c : ascii) : bool :=
  (N_of_ascii lo <=? N_of_ascii c)%N && (N_of_ascii c <=? N_of_ascii hi)%N.

(** [std::isspace] in the "C" locale. *)
Definition isspace (c : ascii) : bool :=
  (N_of_ascii c =? 32)%N || in_range "009" "013" c.

Definition isdigit (c : ascii) : bool := in_range "0" "9" c.

Definition digit_value (c : ascii) : Z :=
  Z.of_N (N_of_ascii c) - 48.

End Chars.

Module Str.

Fixpoint drop_while (p : ascii -> bool) (s : string) : string :=
  match s with
  | String c s' => if p c then drop_while p s' else s
  | EmptyString => EmptyString
  end.

Fixpoint take_while (p : ascii -> bool) (s : string) : string :=
  match s with
  | String c s' => if p c then String c (take_while p s') else EmptyString
  | EmptyString => EmptyString
  end.

Fixpoint rev_onto (s acc : string) : string :=
  match s with
  | String c s' => rev_onto s' (String c acc)
  | EmptyString => acc
  end.

Definition rev (s : string) : string := rev_onto s EmptyString.

Fixpoint forallb (p : ascii -> bool) (s : string) : bool :=
  match s with
  | String c s' => p c && forallb p s'
  | EmptyString => true
  end.

Definition empty (s : string) : bool :=
  match s with EmptyString => true | _ => false end.

Fixpoint repeat (c : ascii) (n : nat) : string :=
  match n with
  | S n' => String c (repeat c n')
  | O => EmptyString
  end.

(** [src] written over the start of [dst]. *)
Definition overwrite (dst src : string) : string :=
  (src ++ String.substring (String.length src)
            (String.length dst - String.length src) dst)%string.

End Str.

(** Modelled from the spec: the generic string helpers [strip], [split] and
    [concat] of mamba/core/util.hpp, which is not part of the sources at
    hand.  The spec treats them as pure helpers: [strip] removes the
    whitespace at both ends, [split] cuts at every occurrence of the
    separator (empty components are kept, and the result is never empty),
    [concat] joins its arguments. *)
Definition strip (input : string) : string :=
  Str.rev (Str.drop_while Chars.isspace (Str.rev (Str.drop_while Chars.isspace input))).

Fixpoint split_from (sep : string) (skip : nat) (input cur : string) : list string :=
  match input with
  | EmptyString => [cur]
  | String c rest =>
      match skip with
      | S k => split_from sep k rest cur
      | O =>
          if String.prefix sep input
          then cur :: split_from sep (String.length sep - 1) rest EmptyString
          else split_from sep 0 rest (cur ++ String c EmptyString)
      end
  end.

Definition split (input sep : string) : list string :=
  split_from sep 0 input EmptyString.

Definition concat (parts : list string) : string :=
  String.concat EmptyString parts.

(** ** [std::stoull]

    Base 10, as [strtoull] does it: leading white space is skipped, one
    sign is accepted, the longest run of digits is converted and whatever
    follows is ignored.  No digit at all is [std::invalid_argument]; a
    magnitude above [ULLONG_MAX] is [std::out_of_range]; a minus sign
    negates the value in the unsigned type. *)

Inductive stoull_result : Type :=
| Parsed (v : Z)
| InvalidArgument
| OutOfRange.

Definition ULLONG_MAX : Z := 2 ^ 64 - 1.

Fixpoint decimal_value (acc : Z) (digits : string) : Z :=
  match digits with
  | String c s' => decimal_value (10 * acc + Chars.digit_value c) s'
  | EmptyString => acc
  end.

Definition stoull (str : string) : stoull_result :=
  let s1 := Str.drop_while Chars.isspace str in
  let '(negative, s2) :=
    match s1 with
    | String "-" s' => (true, s')
    | String "+" s' => (false, s')
    | _ => (false, s1)
    end in
  let digits := Str.take_while Chars.isdigit s2 in
  if Str.empty digits then InvalidArgument
  else
    let v := decimal_value 0 digits in
    if (ULLONG_MAX <? v)%Z then OutOfRange
    else Parsed (if negative then ((2 ^ 64 - v) mod 2 ^ 64)%Z else v).

(** ** [std::regex]: the ECMAScript subset the file uses

    Both patterns of the file are sequences of single characters and of
    greedy repetitions of one character class, with capture groups around
    parts of the sequence.  The matcher is the backtracking one of
    ECMAScript: a repetition first takes as many characters as it can and
    gives them back one at a time while the rest of the pattern fails. *)

Module Regex.

Inductive cset : Type :=
| Lit (c : ascii)
| Range (lo hi : ascii)
| Union (a b : cset)
| Dot.

(** [.] matches everything but a line terminator. *)
Fixpoint mem (cs : cset) (c : ascii) : bool :=
  match cs with
  | Lit d => Ascii.eqb c d
  | Range lo hi => Chars.in_range lo hi c
  | Union a b => mem a c || mem b c
  | Dot => negb (Ascii.eqb c "010" || Ascii.eqb c "013")
  end.

(** [\d] and [\w]. *)
Definition digit : cset := Range "0" "9".
Definition word : cset :=
  Union (Range "a" "z") (Union (Range "A" "Z") (Union digit (Lit "_"))).

Inductive node : Type :=
| Atom (cs : cset)
| Star (cs : cset)
| Plus (cs : cset)
| Open (n : nat)
| Close (n : nat).

Definition regex := list node.

(** Capture registers: the start of every group entered and the
    [(start, end)] of every group left, most recent first. *)
Record caps : Type := mkCaps {
  opened : list (nat * nat);
  closed : list (nat * (nat * nat))
}.

Definition no_caps : caps := mkCaps [] [].

Fixpoint assoc {A : Type} (n : nat) (l : list (nat * A)) : option A :=
  match l with
  | (m, a) :: l' => if Nat.eqb n m then Some a else assoc n l'
  | [] => None
  end.

Definition open_group (n pos : nat) (m : caps) : caps :=
  mkCaps ((n, pos) :: opened m) (closed m).

Definition close_group (n pos : nat) (m : caps) : caps :=
  match assoc n (opened m) with
  | Some start => mkCaps (opened m) ((n, (start, pos)) :: closed m)
  | None => m
  end.

Definition cont := string -> nat -> caps -> option caps.

Fixpoint greedy (cs : cset) (k : cont) (s : string) (pos : nat) (m : caps)
  : option caps :=
  match s with
  | String c s' =>
      if mem cs c
      then match greedy cs k s' (S pos) m with
           | Some r => Some r
           | None => k s pos m
           end
      else k s pos m
  | EmptyString => k s pos m
  end.

(** [exec full re s pos m]: match [re] against [s], which starts at
    offset [pos] of the subject; [full] asks for the end of the subject
    after the pattern ([regex_match]). *)
Fixpoint exec (full : bool) (re : regex) (s : string) (pos : nat) (m : caps)
  : option caps :=
  match re with
  | [] =>
      if full
      then match s with EmptyString => Some m | String _ _ => None end
      else Some m
  | Atom cs :: re' =>
      match s with
      | String c s' => if mem cs c then exec full re' s' (S pos) m else None
      | EmptyString => None
      end
  | Star cs :: re' => greedy cs (exec full re') s pos m
  | Plus cs :: re' =>
      match s with
      | String c s' =>
          if mem cs c then greedy cs (exec full re') s' (S pos) m else None
      | EmptyString => None
      end
  | Open n :: re' => exec full re' s pos (open_group n pos m)
  | Close n :: re' => exec full re' s pos (close_group n pos m)
  end.

(** The match results: the subject and the registers. *)
Record smatch : Type := mkMatch {
  subject : string;
  registers : caps
}.

(** [m[n]] for a capture group [n >= 1]; empty when the group took no
    part in the match. *)
Definition sub (m : smatch) (n : nat) : string :=
  match assoc n (closed (registers m)) with
  | Some (from, to) => String.substring from (to - from) (subject m)
  | None => EmptyString
  end.

Definition mark_count (re : regex) : nat :=
  List.length (List.filter (fun x => match x with Open _ => true | _ => false end) re).

(** [m.size()]: the whole match and one entry for each group. *)
Definition size (re : regex) (m : smatch) : nat := S (mark_count re).

Definition regex_match (re : regex) (s : string) : option smatch :=
  option_map (mkMatch s) (exec true re s 0 no_caps).

(** [regex_search]: the leftmost start at which the pattern matches. *)
Fixpoint search_from (re : regex) (s : string) (pos : nat) : option caps :=
  match exec false re s pos no_caps with
  | Some r => Some r
  | None =>
      match s with
      | String _ s' => search_from re s' (S pos)
      | EmptyString => None
      end
  end.

Definition regex_search (re : regex) (s : string) : option smatch :=
  option_map (mkMatch s) (search_from re s 0).

End Regex.

Import Regex.

(** ["(?:([\\w ]+) ([\\w.]+) .*\\[.* ([\\d.]+)\\])"] *)
Definition ver_output_regex : regex :=
  [ Open 1; Plus (Union word (Lit " ")); Close 1;
    Atom (Lit " ");
    Open 2; Plus (Union word (Lit ".")); Close 2;
    Atom (Lit " ");
    Star Dot;
    Atom (Lit "[");
    Star Dot;
    Atom (Lit " ");
    Open 3; Plus (Union digit (Lit ".")); Close 3;
    Atom (Lit "]") ].

(** ["([0-9]+\\.[0-9]+\\.[0-9]+)-.*"] *)
Definition linux_regex : regex :=
  [ Open 1;
    Plus digit; Atom (Lit "."); Plus digit; Atom (Lit "."); Plus digit;
    Close 1;
    Atom (Lit "-");
    Star Dot ].

(** ** Effects

    What a call can do to the outside is recorded as a trace of events;
    what it returns is a value, a C++ exception, or a fault (an access or
    an assertion the language leaves without defined behaviour). *)

Definition wchar := Z.
Definition wstring := list wchar.

Inductive level : Type := LDebug | LInfo | LWarning | LError.

Inductive exn : Type :=
| runtime_error (what : string)
| invalid_argument (what : string)
| out_of_range (what : string)
| length_error (what : string)
| RegException (what : string).

Definition what (e : exn) : string :=
  match e with
  | runtime_error w | invalid_argument w | out_of_range w
  | length_error w | RegException w => w
  end.

Inductive fault : Type :=
| OutOfBounds (index size : nat)
| AssertionFailed (condition : string).

Inductive result (A : Type) : Type :=
| Ret (a : A)
| Throw (e : exn)
| Fault (f : fault).

Arguments Ret {A} a.
Arguments Throw {A} e.
Arguments Fault {A} f.

Inductive event : Type :=
| Log (lvl : level) (msg : string)
| Stdout (text : string)
| Run (argv : list string)
| RegOpenKey (write_access : bool)
| RegGetValue (name : string)
| RegSetValue (name : string) (v : Z)
| ShellExecute (verb file parameters : string)
| WaitForSingleObject (timeout : option Z)
| GetExitCodeProcess
| CloseHandle
| Prompt (question : string) (default : ascii)
| GetModuleFileName (nSize : Z)
| WideCharToMultiByte (cchWideChar cbMultiByte : Z)
| SetConsoleCP (cp : Z)
| SetConsoleOutputCP (cp : Z)
| Setvbuf (size : Z)
| Setlocale (locale : string)
| Setenv (name value : string).

(** What [reproc::run] hands back: the captured output, the exit status
    and the message of the error code when it is set. *)
Record run_result : Type := mkRun {
  out : string;
  err : string;
  status : Z;
  ec : option string
}.

(** An elevated child behind a process handle: the exit code it ends
    with, what it leaves in the [LongPathsEnabled] registry value, and
    whether [GetExitCodeProcess] succeeds on the handle. *)
Record process : Type := mkProcess {
  exit_code : Z;
  registry_after : option Z -> option Z;
  exit_code_readable : bool
}.

(** [excinfo.hProcess] after a launch that succeeded: a handle to the
    child, or [NULL] when no process was started for the caller to follow
    (the mask [SEE_MASK_NOCLOSEPROCESS] does not promise one). *)
Definition HANDLE : Type := option process.

(** [WaitForSingleObject(hProcess, INFINITE)]: with a handle, the call
    comes back when the child has ended, and what the child did to the
    registry is in place; on [NULL] it fails at once and nothing has been
    waited for.  The result of the call is not looked at. *)
Definition registry_after_wait (hProcess : HANDLE) (value : option Z) : option Z :=
  match hProcess with
  | Some child => registry_after child value
  | None => value
  end.

(** [GetExitCodeProcess(hProcess, &ExitCode)]: the exit code of the child
    is stored when the call succeeds; when it fails ([NULL], or a handle
    that cannot be queried) the variable keeps what it held.  The result
    of the call is not looked at either. *)
Definition read_exit_code (hProcess : HANDLE) (ExitCode : Z) : Z :=
  match hProcess with
  | Some child => if exit_code_readable child then exit_code child else ExitCode
  | None => ExitCode
  end.

Inductive os_family : Type := Windows | MacOS | Linux | OtherOS.

(** The capabilities the file takes from its surroundings. *)
Record Host : Type := mkHost {
  os : os_family;
  reproc_run : list string -> run_result;
  module_file_name : option wstring;
  fs_absolute : wstring -> wstring;
  IsUserAnAdmin : bool;
  geteuid : Z;
  getegid : Z;
  ShellExecuteEx : string -> string -> string -> option HANDLE;
  reg_readable : bool;
  reg_writable : bool;
  confirm : string -> ascii -> bool;
  wc_to_mb : wstring -> Z -> Z * string;
  GetLastError : Z;
  system_message : Z -> string;
  setlocale_ok : string -> bool
}.

(** The mutable part: the process environment, the registry value, the
    console of the process, the three globals of the anonymous namespace,
    and the trace. *)
Record State : Type := mkState {
  environ : string -> option string;
  LongPathsEnabled : option Z;
  console_cp : Z;
  console_output_cp : Z;
  init_console_cp : Z;
  init_console_output_cp : Z;
  init_console_initialized : bool;
  trace : list event
}.

Definition M (A : Type) : Type := State -> result A * State.

Definition ret {A : Type} (a : A) : M A := fun s => (Ret a, s).

Definition bind {A B : Type} (m : M A) (k : A -> M B) : M B :=
  fun s =>
    match m s with
    | (Ret a, s') => k a s'
    | (Throw e, s') => (Throw e, s')
    | (Fault f, s') => (Fault f, s')
    end.

Definition throw {A : Type} (e : exn) : M A := fun s => (Throw e, s).

Definition undefined {A : Type} (f : fault) : M A := fun s => (Fault f, s).

Definition get : M State := fun s => (Ret s, s).

Definition put (s : State) : M unit := fun _ => (Ret tt, s).

Declare Scope monad_scope.
Delimit Scope monad_scope with monad.
Notation "x <- m ;; k" := (bind m (fun x => k))
  (at level 61, m at next level, right associativity) : monad_scope.
Notation "m ;; k" := (bind m (fun _ => k))
  (at level 61, right associativity) : monad_scope.
Open Scope monad_scope.

(** [try { m } catch (const winreg::RegException&) { handler }] *)
Definition catch_RegException {A : Type} (m : M A) (handler : M A) : M A :=
  fun s =>
    match m s with
    | (Throw (RegException _), s') => handler s'
    | r => r
    end.

Definition emit (e : event) : M unit :=
  fun s =>
    (Ret tt,
     mkState (environ s) (LongPathsEnabled s) (console_cp s) (console_output_cp s)
       (init_console_cp s) (init_console_output_cp s) (init_console_initialized s)
       (trace s ++ [e])).

Definition log (lvl : level) (msg : string) : M unit := emit (Log lvl msg).

Definition assert (cond : bool) (text : string) : M unit :=
  if cond then ret tt else undefined (AssertionFailed text).

(** [v[i]] of a [std::vector]: no bounds check. *)
Definition at_index (v : list string) (i : nat) : M string :=
  match nth_error v i with
  | Some x => ret x
  | None => undefined (OutOfBounds i (List.length v))
  end.

Definition run_stoull (str : string) : M Z :=
  match stoull str with
  | Parsed v => ret v
  | InvalidArgument => throw (invalid_argument "stoull")
  | OutOfRange => throw (out_of_range "stoull")
  end.

Definition outcome {A : Type} (r : result A * State) : result A := fst r.
Definition final {A : Type} (r : result A * State) : State := snd r.

(** The events a call added to the trace of the state it started in. *)
Definition emitted {A : Type} (s : State) (r : result A * State) : list event :=
  skipn (List.length (trace s)) (trace (final r)).

Definition set_LongPathsEnabled (v : option Z) (s : State) : State :=
  mkState (environ s) v (console_cp s) (console_output_cp s)
    (init_console_cp s) (init_console_output_cp s) (init_console_initialized s)
    (trace s).

Definition set_console_cp (v : Z) (s : State) : State :=
  mkState (environ s) (LongPathsEnabled s) v (console_output_cp s)
    (init_console_cp s) (init_console_output_cp s) (init_console_initialized s)
    (trace s).

Definition set_console_output_cp (v : Z) (s : State) : State :=
  mkState (environ s) (LongPathsEnabled s) (console_cp s) v
    (init_console_cp s) (init_console_output_cp s) (init_console_initialized s)
    (trace s).

Definition set_init_console_cp (v : Z) (s : State) : State :=
  mkState (environ s) (LongPathsEnabled s) (console_cp s) (console_output_cp s)
    v (init_console_output_cp s) (init_console_initialized s) (trace s).

Definition set_init_console_output_cp (v : Z) (s : State) : State :=
  mkState (environ s) (LongPathsEnabled s) (console_cp s) (console_output_cp s)
    (init_console_cp s) v (init_console_initialized s) (trace s).

Definition set_init_console_initialized (v : bool) (s : State) : State :=
  mkState (environ s) (LongPathsEnabled s) (console_cp s) (console_output_cp s)
    (init_console_cp s) (init_console_output_cp s) v (trace s).

Definition set_environ (name value : string) (s : State) : State :=
  mkState (fun n => if String.eqb n name then Some value else environ s n)
    (LongPathsEnabled s) (console_cp s) (console_output_cp s)
    (init_console_cp s) (init_console_output_cp s) (init_console_initialized s)
    (trace s).

Definition modify (f : State -> State) : M unit := fun s => (Ret tt, f s).

(** Modelled from the spec: [env::get] of mamba/core/environment.hpp, which
    is not part of the sources at hand: the value of the variable, and the
    empty string when the variable is not set. *)
Definition env_get (name : string) : M string :=
  s <- get ;;
  ret (match environ s name with Some v => v | None => EmptyString end).

Definition dquote : string := String "034" EmptyString.
Definition newline : string := String "010" EmptyString.

(** ** PathResolver: [get_self_exe_path], the [_WIN32] variant *)

Definition MAX_PATH : Z := 260.
Definition DWORD (z : Z) : Z := z mod 2 ^ 32.
Definition npos : Z := 2 ^ 64 - 1.
Definition max_size : Z := 2 ^ 62 - 1.

(** A [std::wstring]: the characters up to [size()], and the capacity. *)
Record wbuffer : Type := mkBuf {
  chars : wstring;
  capacity : Z
}.

Definition buffer_size (b : wbuffer) : Z := Z.of_nat (List.length (chars b)).

(** [reserve] changes the capacity and never the size. *)
Definition reserve (n : Z) (b : wbuffer) : wbuffer :=
  mkBuf (chars b) (Z.max (capacity b) n).

Definition overwrite (dst src : wstring) : wstring :=
  src ++ skipn (List.length src) dst.

(** [GetModuleFileNameW(NULL, lpFilename, nSize)]: the path and a
    terminating null when they fit in [nSize] characters, and the length
    of the path is returned; otherwise the first [nSize - 1] characters and
    a null, and [nSize] is returned; [0] on failure. *)
Definition GetModuleFileNameW (h : Host) (lpFilename : wstring) (nSize : Z)
  : wstring * Z :=
  match module_file_name h with
  | None => (lpFilename, 0%Z)
  | Some path =>
      let len := Z.of_nat (List.length path) in
      if (nSize <=? 0)%Z then (lpFilename, 0%Z)
      else if (len <? nSize)%Z then (overwrite lpFilename (path ++ [0%Z]), len)
      else (overwrite lpFilename (firstn (Z.to_nat (nSize - 1)) path ++ [0%Z]), nSize)
  end.

(** [buffer.find(L'\0')] *)
Fixpoint find_null (w : wstring) (i : Z) : Z :=
  match w with
  | c :: w' => if (c =? 0)%Z then i else find_null w' (i + 1)%Z
  | [] => npos
  end.

(** [buffer.resize(n)] *)
Definition resize (n : Z) (b : wbuffer) : result wbuffer :=
  if (max_size <? n)%Z then Throw (length_error "basic_string::resize")
  else
    let k := Z.to_nat n in
    Ret (mkBuf (firstn k (chars b) ++ repeat 0%Z (k - List.length (chars b)))
           (Z.max (capacity b) n)).

(** The [do ... while (new_size == size)] loop; [fuel] bounds the number of
    rounds, and [None] is a loop that has not ended within it. *)
Fixpoint grow (h : Host) (fuel : nat) (new_size : Z) (buffer : wbuffer)
  : option (wbuffer * Z) :=
  match fuel with
  | O => None
  | S fuel' =>
      let new_size := DWORD (new_size * 2) in
      let buffer := reserve new_size buffer in
      let '(data, size) :=
        GetModuleFileNameW h (chars buffer) (DWORD (buffer_size buffer)) in
      let buffer := mkBuf data (capacity buffer) in
      if (new_size =? size)%Z then grow h fuel' new_size buffer
      else Some (buffer, size)
  end.

Definition get_self_exe_path (h : Host) (fuel : nat) : option (result wstring) :=
  let buffer := mkBuf (repeat 0%Z (Z.to_nat MAX_PATH)) MAX_PATH in
  let '(data, size) :=
    GetModuleFileNameW h (chars buffer) (DWORD (buffer_size buffer)) in
  let buffer := mkBuf data (capacity buffer) in
  let finish (buffer : wbuffer) : result wstring :=
    match resize (find_null (chars buffer) 0) buffer with
    | Ret buffer => Ret (fs_absolute h (chars buffer))
    | Throw e => Throw e
    | Fault f => Fault f
    end in
  if (size =? 0)%Z
  then Some (Throw (runtime_error "Could find location of the micromamba executable!"))
  else if (size =? buffer_size buffer)%Z
  then
    match grow h fuel size buffer with
    | Some (buffer, _) => Some (finish buffer)
    | None => None
    end
  else Some (finish buffer).

Section WithHost.

Variable h : Host.

Definition on_win : bool := match os h with Windows => true | _ => false end.
Definition on_mac : bool := match os h with MacOS => true | _ => false end.
Definition on_linux : bool := match os h with Linux => true | _ => false end.

(** [reproc::run] with string sinks for both streams. *)
Definition run (argv : list string) : M run_result :=
  emit (Run argv) ;; ret (reproc_run h argv).

(** ** PrivilegeManager *)

Definition is_admin : M bool :=
  ret (match os h with
       | Windows => IsUserAnAdmin h
       | _ => (geteuid h =? 0)%Z || (getegid h =? 0)%Z
       end).

Definition INFINITE : option Z := None.

Definition run_as_admin (exe args : string) : M bool :=
  emit (ShellExecute "runas" exe args) ;;
  match ShellExecuteEx h "runas" exe args with
  | None =>
      log LWarning "Could not start process as admin." ;;
      ret false
  | Some hProcess =>
      let ExitCode := 0%Z in
      emit (WaitForSingleObject INFINITE) ;;
      modify (fun s => set_LongPathsEnabled
                         (registry_after_wait hProcess (LongPathsEnabled s)) s) ;;
      emit GetExitCodeProcess ;;
      let ExitCode := read_exit_code hProcess ExitCode in
      emit CloseHandle ;;
      if negb (ExitCode =? 0)%Z
      then log LWarning "Process exited with code != 0." ;; ret false
      else ret true
  end.

(** ** VersionDetector *)

Definition windows_version : M string :=
  log LDebug "Loading Windows virtual package" ;;
  override <- env_get "CONDA_OVERRIDE_WIN" ;;
  if negb (Str.empty override) then env_get "CONDA_OVERRIDE_WIN"
  else if negb on_win then ret EmptyString
  else
    comspec <- env_get "COMSPEC" ;;
    r <- run [comspec; "/c"; "ver"] ;;
    match ec r with
    | Some message =>
        log LWarning ("Could not find Windows version by calling 'ver'" ++ newline
                      ++ "Please file a bug report." ++ newline ++ "Error: " ++ message) ;;
        ret EmptyString
    | None =>
        let xout := strip (out r) in
        match regex_match ver_output_regex xout with
        | Some rmatch =>
            let full_version := sub rmatch 3 in
            let version_els := split full_version "." in
            e0 <- at_index version_els 0 ;;
            e1 <- at_index version_els 1 ;;
            e2 <- at_index version_els 2 ;;
            let norm_version := concat [e0; "."; e1; "."; e2] in
            log LDebug ("Windows version found: " ++ norm_version) ;;
            ret norm_version
        | None =>
            log LDebug "Windows version not found" ;;
            ret "0.0.0"
        end
    end.

Definition macos_version : M string :=
  log LDebug "Loading macos virtual package" ;;
  override <- env_get "CONDA_OVERRIDE_OSX" ;;
  if negb (Str.empty override) then env_get "CONDA_OVERRIDE_OSX"
  else if negb on_mac then ret EmptyString
  else
    r <- run ["sw_vers"; "-productVersion"] ;;
    match ec r with
    | Some message =>
        log LWarning ("Could not find macOS version by calling 'sw_vers -productVersion'"
                      ++ newline ++ "Please file a bug report." ++ newline
                      ++ "Error: " ++ message) ;;
        ret EmptyString
    | None =>
        let version := strip (out r) in
        log LDebug ("macos version found: " ++ version) ;;
        ret version
    end.

Definition linux_version : M string :=
  log LDebug "Loading linux virtual package" ;;
  override <- env_get "CONDA_OVERRIDE_LINUX" ;;
  if negb (Str.empty override) then env_get "CONDA_OVERRIDE_LINUX"
  else if negb on_linux then ret EmptyString
  else
    r <- run ["uname"; "-r"] ;;
    match ec r with
    | Some _ =>
        log LDebug "Could not find linux version by calling 'uname -r' (skipped)" ;;
        ret EmptyString
    | None =>
        match regex_search linux_regex (out r) with
        | Some m =>
            if Nat.eqb (Regex.size linux_regex m) 2
            then
              let linux_version := sub m 1 in
              log LDebug ("linux version found: " ++ linux_version) ;;
              ret linux_version
            else ret EmptyString
        | None => ret EmptyString
        end
    end.

(** *** The registry, through WinReg *)

Definition RegKey_Open (write_access : bool) : M unit :=
  emit (RegOpenKey write_access) ;;
  if (if write_access then reg_writable h else reg_readable h)
  then ret tt
  else throw (RegException "RegOpenKeyEx failed.").

Definition GetDwordValue (name : string) : M Z :=
  emit (RegGetValue name) ;;
  s <- get ;;
  match LongPathsEnabled s with
  | Some v => ret (DWORD v)
  | None => throw (RegException "Cannot get DWORD value: RegGetValue failed.")
  end.

Definition SetDwordValue (name : string) (v : Z) : M unit :=
  emit (RegSetValue name v) ;;
  modify (set_LongPathsEnabled (Some v)).

Definition version_warning : string :=
  "Not setting long path registry key; Windows version must be at least 10 "
  ++ "with the fall 2016 " ++ dquote ++ "Anniversary update" ++ dquote ++ " or newer.".

Definition reg_add_arguments : string :=
  "ADD HKEY_LOCAL_MACHINE\SYSTEM\CurrentControlSet\Control\FileSystem /v LongPathsEnabled /d 1 /t REG_DWORD /f".

(** The condition of the first [if]: [&&] evaluates its right operand
    only when the left one holds. *)
Definition version_supported (splitted : list string) : M bool :=
  if (3 <=? List.length splitted)%nat
  then
    e0 <- at_index splitted 0 ;;
    major <- run_stoull e0 ;;
    if (10 <=? major)%Z
    then
      e2 <- at_index splitted 2 ;;
      build <- run_stoull e2 ;;
      ret (14352 <=? build)%Z
    else ret false
  else ret false.

Definition enable_long_paths_support (force : bool) : M bool :=
  win_ver <- windows_version ;;
  let splitted := split win_ver "." in
  supported <- version_supported splitted ;;
  if negb supported
  then log LWarning version_warning ;; ret false
  else
    RegKey_Open false ;;
    read <- catch_RegException
              (v <- GetDwordValue "LongPathsEnabled" ;; ret (Some v))
              (log LInfo "No LongPathsEnabled key detected." ;; ret None) ;;
    match read with
    | None => ret false
    | Some prev_value =>
        if (prev_value =? 1)%Z
        then emit (Stdout "Windows long-path support already enabled.") ;; ret true
        else
          admin <- (if force then ret true else is_admin) ;;
          written <-
            (if admin
             then
               RegKey_Open true ;;
               SetDwordValue "LongPathsEnabled" 1 ;;
               ret true
             else
               let question := "Enter admin mode to enable long paths support?" in
               emit (Prompt question "n") ;;
               if confirm h question "n"
               then run_as_admin "reg.exe" reg_add_arguments
               else log LWarning "Did not enable long paths support." ;; ret false) ;;
          if negb written then ret false
          else
            prev_value <- GetDwordValue "LongPathsEnabled" ;;
            if (prev_value =? 1)%Z
            then emit (Stdout "Windows long-path support enabled.") ;; ret true
            else log LWarning "Changing registry value did not succeed." ;; ret false
    end.

(** ** ConsoleEncodingManager *)

Definition CP_UTF8 : Z := 65001.
Definition INT_MAX : Z := 2 ^ 31 - 1.

Definition utf8_locales : list string := ["C.UTF-8"; "POSIX.UTF-8"; "en_US.UTF-8"].

(** The [for] loop over the candidate locales, left at the first one
    [setlocale] accepts. *)
Fixpoint try_locales (candidates : list string) : M unit :=
  match candidates with
  | utf8_locale :: rest =>
      emit (Setlocale utf8_locale) ;;
      if setlocale_ok h utf8_locale
      then
        emit (Setenv "LC_ALL" utf8_locale) ;;
        modify (set_environ "LC_ALL" utf8_locale)
      else try_locales rest
  | [] => ret tt
  end.

Definition init_console : M unit :=
  match os h with
  | Windows =>
      s <- get ;;
      modify (set_init_console_cp (console_cp s)) ;;
      s <- get ;;
      modify (set_init_console_output_cp (console_output_cp s)) ;;
      modify (set_init_console_initialized true) ;;
      emit (SetConsoleCP CP_UTF8) ;;
      modify (set_console_cp CP_UTF8) ;;
      emit (SetConsoleOutputCP CP_UTF8) ;;
      modify (set_console_output_cp CP_UTF8) ;;
      emit (Setvbuf 1000)
  | _ => try_locales utf8_locales
  end.

Definition reset_console : M unit :=
  match os h with
  | Windows =>
      s <- get ;;
      if init_console_initialized s
      then
        emit (SetConsoleCP (init_console_cp s)) ;;
        modify (set_console_cp (init_console_cp s)) ;;
        s <- get ;;
        emit (SetConsoleOutputCP (init_console_output_cp s)) ;;
        modify (set_console_output_cp (init_console_output_cp s))
      else ret tt
  | _ => ret tt
  end.

(** [to_utf8(w, s)]: [w] holds the [s] wide characters to convert.  The
    conversion facility answers a call with its return value and the bytes
    it wrote to the output buffer. *)
Definition call_WideCharToMultiByte (w : wstring) (cch cb : Z) : M (Z * string) :=
  emit (WideCharToMultiByte cch cb) ;;
  ret (wc_to_mb h w cb).

Definition to_utf8 (w : wstring) : M string :=
  let s := Z.of_nat (List.length w) in
  if negb (s =? 0)%Z
  then
    assert (s <=? INT_MAX)%Z "s <= INT_MAX" ;;
    r <- call_WideCharToMultiByte w s 0 ;;
    let size := fst r in
    if (size <=? 0)%Z
    then
      let last_error := GetLastError h in
      log LError ("Failed to convert string to UTF-8 " ++ system_message h last_error) ;;
      throw (runtime_error "Failed to convert string to UTF-8")
    else
      let output := Str.repeat "000" (Z.to_nat size) in
      r <- call_WideCharToMultiByte w s size ;;
      let res_size := fst r in
      let output := Str.overwrite output (snd r) in
      assert (res_size =? size)%Z "res_size == size" ;;
      ret output
  else ret EmptyString.

(** [to_utf8(w)]: the characters before the terminating null. *)
Fixpoint until_null (w : wstring) : wstring :=
  match w with
  | c :: w' => if (c =? 0)%Z then [] else c :: until_null w'
  | [] => []
  end.

Definition to_utf8_cstr (w : wstring) : M string := to_utf8 (until_null w).

End WithHost.

(** A process as it starts: nothing captured, nothing traced. *)
Definition process_start (env : string -> option string) (registry : option Z)
  (cp output_cp : Z) : State :=
  mkState env registry cp output_cp 0%Z 0%Z false [].

(** ** Sample hosts and states *)

Definition no_env : string -> option string := fun _ => None.

Definition env_with (name value : string) : string -> option string :=
  fun n => if String.eqb n name then Some value else None.

(** A host of family [o] whose version command prints [banner], and where
    nothing else is available. *)
Definition plain_host (o : os_family) (banner : string) : Host :=
  mkHost o (fun _ => mkRun banner EmptyString 0%Z None) None (fun w => w)
    false 1000%Z 1000%Z (fun _ _ _ => None) true false (fun _ _ => false)
    (fun _ _ => (0%Z, EmptyString)) 0%Z (fun _ => EmptyString) (fun _ => false).

Definition fresh (env : string -> option string) : State :=
  process_start env (Some 0%Z) 437%Z 437%Z.

Definition is_registry_event (e : event) : bool :=
  match e with
  | RegOpenKey _ | RegGetValue _ | RegSetValue _ _ => true
  | _ => false
  end.

Definition is_subprocess_event (e : event) : bool :=
  match e with
  | Run _ | ShellExecute _ _ _ => true
  | _ => false
  end.

(** A host on which every override variable can be observed at once. *)
Definition every_variable (value : string) : string -> option string :=
  fun _ => Some value.

(** An elevation host: [ShellExecuteEx] starts a child that ends with
    [code] and writes [1] to the registry value when [code] is zero. *)
Definition elevating_host (code : Z) : Host :=
  mkHost Windows (fun _ => mkRun EmptyString EmptyString 0%Z None) None (fun w => w)
    false 1000%Z 1000%Z
    (fun _ _ _ =>
       Some (Some (mkProcess code (fun v => if (code =? 0)%Z then Some 1%Z else v) true)))
    true false (fun _ _ => true)
    (fun _ _ => (0%Z, EmptyString)) 0%Z (fun _ => EmptyString) (fun _ => false).


(** A host on which the elevated child ends with [0] and has removed the
    registry value. *)
Definition removing_host : Host :=
  mkHost Windows (fun _ => mkRun EmptyString EmptyString 0%Z None) None (fun w => w)
    false 1000%Z 1000%Z
    (fun _ _ _ => Some (Some (mkProcess 0%Z (fun _ => None) true)))
    true false (fun _ _ => true)
    (fun _ _ => (0%Z, EmptyString)) 0%Z (fun _ => EmptyString) (fun _ => false).

(** A host on which the size query of the conversion succeeds and the
    conversion proper then fails. *)
Definition late_failure_host : Host :=
  mkHost Windows (fun _ => mkRun EmptyString EmptyString 0%Z None) None (fun w => w)
    false 1000%Z 1000%Z (fun _ _ _ => None) true false (fun _ _ => false)
    (fun _ cb => (if (cb =? 0)%Z then 3%Z else 0%Z, EmptyString))
    1113%Z (fun _ => EmptyString) (fun _ => false).

(** A host on which the conversion of every wide string fails with
    [ERROR_NO_UNICODE_TRANSLATION]. *)
Definition no_translation : string :=
  "No mapping for the Unicode character exists in the target multi-byte code page.".

Definition failing_conversion_host : Host :=
  mkHost Windows (fun _ => mkRun EmptyString EmptyString 0%Z None) None (fun w => w)
    false 1000%Z 1000%Z (fun _ _ _ => None) true false (fun _ _ => false)
    (fun _ _ => (0%Z, EmptyString)) 1113%Z (fun _ => no_translation) (fun _ => false).

(** [needle] occurs somewhere in [hay]. *)
Fixpoint is_infix (needle hay : string) : bool :=
  String.prefix needle hay
  || match hay with
     | String _ hay' => is_infix needle hay'
     | EmptyString => false
     end.

(** ** Sequences of console calls

    What a process can do to the console state: call [init_console], call
    [reset_console], or have the codepages changed from elsewhere (another
    component, or the user with [chcp]).  The three globals sit in an
    anonymous namespace, so only the two functions reach them. *)
Inductive console_call : Type :=
| CallInit
| CallReset
| Chcp (input output : Z).

Definition is_init (c : console_call) : bool :=
  match c with CallInit => true | _ => false end.

Definition console_step (h : Host) (s : State) (c : console_call) : State :=
  match c with
  | CallInit => final (init_console h s)
  | CallReset => final (reset_console h s)
  | Chcp i o => set_console_output_cp o (set_console_cp i s)
  end.

Definition console_run (h : Host) (calls : list console_call) (s : State) : State :=
  fold_left (console_step h) calls s.

(** ** Vocabulary of the version checks

    The dot-separated components of a version string, and the number a
    component stands for when [std::stoull] converts it. *)
Definition components (ver : string) : list string := split ver ".".

Definition component_value (ver : string) (i : nat) : option Z :=
  match nth_error (components ver) i with
  | Some e => match stoull e with Parsed v => Some v | _ => None end
  | None => None
  end.

(** A Windows host whose executable sits at a path of 300 characters:
    [C:\], 296 times [a], and [.] (long paths are what
    [enable_long_paths_support] turns on). *)
Definition long_exe_path : wstring :=
  [67; 58; 92]%Z ++ repeat 97%Z 296 ++ [46%Z].

Definition long_path_host : Host :=
  mkHost Windows (fun _ => mkRun EmptyString EmptyString 0%Z None)
    (Some long_exe_path) (fun w => w)
    false 1000%Z 1000%Z (fun _ _ _ => None) true false (fun _ _ => false)
    (fun _ _ => (0%Z, EmptyString)) 0%Z (fun _ => EmptyString) (fun _ => false).

(** A computation is registry-free when all it adds to the trace are
    events other than registry accesses and it leaves the registry value
    as it found it. *)
Definition registry_free {A : Type} (m : M A) : Prop :=
  forall s, exists evs,
    trace (final (m s)) = trace s ++ evs
    /\ forallb (fun e => negb (is_registry_event e)) evs = true
    /\ LongPathsEnabled (final (m s)) = LongPathsEnabled s.

Definition is_parse_error (e : exn) : Prop :=
  match e with
  | invalid_argument _ | out_of_range _ => True
  | _ => False
  end.

(** The environment as [env::get] shows it. *)
Definition env_value (s : State) (name : string) : string :=
  match environ s name with Some v => v | None => EmptyString end.

(** The version command of the host ran without an error code and printed
    [text]. *)
Definition prints (h : Host) (argv : list string) (text : string) : Prop :=
  ec (reproc_run h argv) = None /\ out (reproc_run h argv) = text.

(** ** Vocabulary of the kernel release

    [<int>]: a non-empty run of decimal digits; [<int>.<int>.<int>]: a
    version token; a version token followed by a hyphen occurs at offset
    [i] of a text. *)
Definition int_token (a : string) : Prop :=
  a <> EmptyString /\ Str.forallb Chars.isdigit a = true.

Definition version_token (v : string) : Prop :=
  exists a b c, int_token a /\ int_token b /\ int_token c
                /\ v = (a ++ "." ++ b ++ "." ++ c)%string.

Definition occurs_at (text : string) (i : nat) (v : string) : Prop :=
  version_token v
  /\ exists pre post,
      text = (pre ++ v ++ "-" ++ post)%string /\ String.length pre = i.

(** A scanner for the same shape at the head of a text, with maximal runs
    of digits; the matcher is compared with it below. *)
Definition scan_int (s : string) : option (string * string) :=
  let a := Str.take_while Chars.isdigit s in
  if Str.empty a then None else Some (a, Str.drop_while Chars.isdigit s).

Definition scan_char (c : ascii) (s : string) : option string :=
  match s with
  | String d r => if Ascii.eqb d c then Some r else None
  | EmptyString => None
  end.

Definition version_prefix (s : string) : option (string * string) :=
  match scan_int s with
  | Some (a, s1) =>
      match scan_char "." s1 with
      | Some s2 =>
          match scan_int s2 with
          | Some (b, s3) =>
              match scan_char "." s3 with
              | Some s4 =>
                  match scan_int s4 with
                  | Some (c, s5) =>
                      match scan_char "-" s5 with
                      | Some post => Some ((a ++ "." ++ b ++ "." ++ c)%string, post)
                      | None => None
                      end
                  | None => None
                  end
              | None => None
              end
          | None => None
          end
      | None => None
      end
  | None => None
  end.

(** ** PathResolver: [get_self_exe_path], the [__APPLE__] variant

    [PATH_MAX] comes from the system headers and the canonicalisation from
    [fs::absolute]; both are parameters here. *)

Definition cstring := list Z.

Definition UINT32 (z : Z) : Z := z mod 2 ^ 32.

(** [_NSGetExecutablePath(buf, &bufsize)]: copies the path and its
    terminating null and returns [0] when [bufsize] bytes are enough;
    otherwise sets [bufsize] to the size needed and returns [-1]. *)
Definition NSGetExecutablePath (exe buf : cstring) (bufsize : Z)
  : cstring * Z * Z :=
  let need := (Z.of_nat (List.length exe) + 1)%Z in
  if (need <=? bufsize)%Z then (overwrite buf (exe ++ [0%Z]), bufsize, 0%Z)
  else (buf, UINT32 need, (-1)%Z).

(** The storage behind a [std::vector<char>] after [reserve(n)]: what it
    held, and room up to [n] bytes. *)
Definition reserve_storage (n : Z) (storage : cstring) : cstring :=
  storage ++ List.repeat 0%Z (Z.to_nat n - List.length storage).

Definition get_self_exe_path_apple (PATH_MAX : Z) (absolute : cstring -> cstring)
  (exe : cstring) : result cstring :=
  let size := UINT32 PATH_MAX in
  let buffer := List.repeat 0%Z (Z.to_nat size) in
  let '(buffer, size, r) := NSGetExecutablePath exe buffer size in
  if (r =? -1)%Z
  then
    let buffer := reserve_storage size buffer in
    let '(buffer, size, r) := NSGetExecutablePath exe buffer size in
    if (r =? 0)%Z
    then Throw (runtime_error "Couldn't find location the micromamba executable!")
    else Ret (absolute (until_null buffer))
  else Ret (absolute (until_null buffer)).

(** ** ProcessInspector *)

Record PROCESSENTRY32 : Type := mkEntry {
  th32ProcessID : Z;
  th32ParentProcessID : Z
}.

(** The [do ... while (Process32Next(...))] loop over the entries of the
    snapshot, left at the first entry of the process. *)
Fixpoint scan_snapshot (pid ppid : Z) (entries : list PROCESSENTRY32) : Z :=
  match entries with
  | pe32 :: rest =>
      if (th32ProcessID pe32 =? pid)%Z then th32ParentProcessID pe32
      else scan_snapshot pid ppid rest
  | [] => ppid
  end.

(** [getppid()]: [snapshot] is what [CreateToolhelp32Snapshot] gives
    ([None] for [INVALID_HANDLE_VALUE]) and [pid] is
    [GetCurrentProcessId()].  [Process32First] fails on a snapshot without
    entries; the [__finally] block closes a valid handle on every way
    out. *)
Definition getppid (snapshot : option (list PROCESSENTRY32)) (pid : Z) : M Z :=
  let ppid := 0%Z in
  match snapshot with
  | None => ret ppid
  | Some entries =>
      let ppid := scan_snapshot pid ppid entries in
      emit CloseHandle ;;
      ret ppid
  end.

(** [std::to_string(int)] *)
Definition to_string (n : Z) : string := NilZero.string_of_int (Z.to_int n).

(** [std::getline(f, l)]: the characters before the first newline. *)
Definition getline (content : string) : string :=
  Str.take_while (fun c => negb (Ascii.eqb c "010")) content.

(** [get_process_name_by_pid], the [__linux__] variant; [read_file] is the
    file system: the content of a file that can be opened. *)
Definition get_process_name_by_pid (read_file : string -> option string)
  (pid : Z) : string :=
  match read_file (concat ["/proc/"; to_string pid; "/status"]) with
  | Some content => getline content
  | None => EmptyString
  end.

(** A Windows host whose executable sits at [C:\m]. *)
Definition short_exe_path : wstring := [67; 58; 92; 109]%Z.

Definition short_path_host : Host :=
  mkHost Windows (fun _ => mkRun EmptyString EmptyString 0%Z None)
    (Some short_exe_path) (fun w => w)
    false 1000%Z 1000%Z (fun _ _ _ => None) true false (fun _ _ => false)
    (fun _ _ => (0%Z, EmptyString)) 0%Z (fun _ => EmptyString) (fun _ => false).

(** A snapshot of three processes. *)
Definition sample_snapshot : list PROCESSENTRY32 :=
  [mkEntry 4 0; mkEntry 812 4; mkEntry 4312 812].

Definition tab : string := String "009" EmptyString.

(** A [/proc] holding the status file of process 4312. *)
Definition sample_proc (path : string) : option string :=
  if String.eqb path "/proc/4312/status"
  then Some ("Name:" ++ tab ++ "micromamba" ++ newline ++ "Umask:" ++ tab ++ "0022" ++ newline)%string
  else None.

(** A host on which only the third candidate locale exists. *)
Definition en_US_host : Host :=
  mkHost Linux (fun _ => mkRun EmptyString EmptyString 0%Z None) None (fun w => w)
    false 1000%Z 1000%Z (fun _ _ _ => None) true false (fun _ _ => false)
    (fun _ _ => (0%Z, EmptyString)) 0%Z (fun _ => EmptyString)
    (fun l => String.eqb l "en_US.UTF-8").

(** A host that converts every wide string to the three bytes of the
    euro sign. *)
Definition euro : string := String "226" (String "130" (String "172" EmptyString)).

Definition converting_host : Host :=
  mkHost Windows (fun _ => mkRun EmptyString EmptyString 0%Z None) None (fun w => w)
    false 1000%Z 1000%Z (fun _ _ _ => None) true false (fun _ _ => false)
    (fun _ cb => (3%Z, if (cb =? 0)%Z then EmptyString else euro))
    0%Z (fun _ => EmptyString) (fun _ => false).

(** A Windows 10 host that starts as an administrator who may write the
    registry, and one whose user is asked and whose elevated [reg.exe]
    ends with [code]. *)
Definition admin_host : Host :=
  mkHost Windows (fun _ => mkRun EmptyString EmptyString 0%Z None) None (fun w => w)
    true 1000%Z 1000%Z (fun _ _ _ => None) true true (fun _ _ => false)
    (fun _ _ => (0%Z, EmptyString)) 0%Z (fun _ => EmptyString) (fun _ => false).

Definition declining_host : Host :=
  mkHost Windows (fun _ => mkRun EmptyString EmptyString 0%Z None) None (fun w => w)
    false 1000%Z 1000%Z (fun _ _ _ => None) true false (fun _ _ => false)
    (fun _ _ => (0%Z, EmptyString)) 0%Z (fun _ => EmptyString) (fun _ => false).

(** A host whose version command cannot be started. *)
Definition broken_run_host (o : os_family) : Host :=
  mkHost o (fun _ => mkRun EmptyString EmptyString 0%Z (Some "No such file or directory"))
    None (fun w => w)
    false 1000%Z 1000%Z (fun _ _ _ => None) true false (fun _ _ => false)
    (fun _ _ => (0%Z, EmptyString)) 0%Z (fun _ => EmptyString) (fun _ => false).

Definition windows10 : string -> option string :=
  env_with "CONDA_OVERRIDE_WIN" "10.0.19041".

Definition is_write_event (e : event) : bool :=
  match e with RegSetValue _ _ => true | _ => false end.

Definition is_elevation_event (e : event) : bool :=
  match e with ShellExecute _ _ _ | Prompt _ _ => true | _ => false end.

(** The characters of a normalised version: digits and dots. *)
Definition version_char (c : ascii) : bool :=
  Chars.isdigit c || Ascii.eqb c ".".

(** The version of the host meets the requirement of the long path
    setting: Windows 10, build 14352 or later. *)
Definition meets_requirement (ver : string) : Prop :=
  exists major build,
    component_value ver 0 = Some major /\ (10 <= major)%Z
    /\ component_value ver 2 = Some build /\ (14352 <= build)%Z.

Definition elevation_question : string :=
  "Enter admin mode to enable long paths support?".

(** What [enable_long_paths_support] does once the version has passed:
    its text from [winreg::RegKey key;] to the end. *)
Definition registry_stage (h : Host) (force : bool) : M bool :=
  RegKey_Open h false ;;
  read <- catch_RegException
            (v <- GetDwordValue "LongPathsEnabled" ;; ret (Some v))
            (log LInfo "No LongPathsEnabled key detected." ;; ret None) ;;
  match read with
  | None => ret false
  | Some prev_value =>
      if (prev_value =? 1)%Z
      then emit (Stdout "Windows long-path support already enabled.") ;; ret true
      else
        admin <- (if force then ret true else is_admin h) ;;
        written <-
          (if admin
           then
             RegKey_Open h true ;;
             SetDwordValue "LongPathsEnabled" 1 ;;
             ret true
           else
             let question := "Enter admin mode to enable long paths support?" in
             emit (Prompt question "n") ;;
             if confirm h question "n"
             then run_as_admin h "reg.exe" reg_add_arguments
             else log LWarning "Did not enable long paths support." ;; ret false) ;;
        if negb written then ret false
        else
          prev_value <- GetDwordValue "LongPathsEnabled" ;;
          if (prev_value =? 1)%Z
          then emit (Stdout "Windows long-path support enabled.") ;; ret true
          else log LWarning "Changing registry value did not succeed." ;; ret false
  end.

(** A Windows 10 process, told its version by the override, and the
    state the version detection leaves it in. *)
Definition windows10_start (registry : option Z) : State :=
  process_start windows10 registry 437%Z 437%Z.

Definition windows10_detected (registry : option Z) : State :=
  snd (log LDebug "Loading Windows virtual package" (windows10_start registry)).

(** * Properties *)

Lemma skipn_length_app {A : Type} (l l' : list A) :
  skipn (List.length l) (l ++ l') = l'.
Proof.
  induction l as [|x l IH]; simpl; auto.
Qed.

Lemma emitted_app {A : Type} (s : State) (r : result A * State) (evs : list event) :
  trace (final r) = trace s ++ evs -> emitted s r = evs.
Proof.
  unfold emitted. intros ->. apply skipn_length_app.
Qed.

(** Unfolding of the monad's plumbing, shared by the proofs below. *)
Ltac monad_unfold :=
  cbv beta iota delta
    [bind ret throw undefined get put modify emit log env_get assert
     at_index run_stoull catch_RegException run outcome final].

Lemma empty_false (S0 : string) : S0 <> EmptyString -> Str.empty S0 = false.
Proof.
  destruct S0; [congruence | reflexivity].
Qed.

(** ** VersionDetector: the override *)

Section Override.

Variables (h : Host) (s : State) (S0 : string).
Hypothesis nonempty : S0 <> EmptyString.

Lemma windows_override :
  environ s "CONDA_OVERRIDE_WIN" = Some S0 ->
  windows_version h s
  = (Ret S0, snd (log LDebug "Loading Windows virtual package" s)).
Proof.
  intros E. unfold windows_version. monad_unfold. simpl.
  rewrite E, (empty_false _ nonempty). simpl. rewrite E. reflexivity.
Qed.

Lemma macos_override :
  environ s "CONDA_OVERRIDE_OSX" = Some S0 ->
  macos_version h s
  = (Ret S0, snd (log LDebug "Loading macos virtual package" s)).
Proof.
  intros E. unfold macos_version. monad_unfold. simpl.
  rewrite E, (empty_false _ nonempty). simpl. rewrite E. reflexivity.
Qed.

Lemma linux_override :
  environ s "CONDA_OVERRIDE_LINUX" = Some S0 ->
  linux_version h s
  = (Ret S0, snd (log LDebug "Loading linux virtual package" s)).
Proof.
  intros E. unfold linux_version. monad_unfold. simpl.
  rewrite E, (empty_false _ nonempty). simpl. rewrite E. reflexivity.
Qed.

End Override.

(** C5.  When the override variable of a family holds a non-empty string,
    the version function of that family returns exactly that string, on
    every host (whatever its OS family), and the only thing it does on the
    way is to log one debug line: no subprocess is run. *)
Theorem override_returned_verbatim (h : Host) (s : State) (S0 : string) :
  S0 <> EmptyString ->
  (environ s "CONDA_OVERRIDE_WIN" = Some S0 ->
   outcome (windows_version h s) = Ret S0
   /\ forallb (fun e => negb (is_subprocess_event e))
        (emitted s (windows_version h s)) = true)
  /\ (environ s "CONDA_OVERRIDE_OSX" = Some S0 ->
      outcome (macos_version h s) = Ret S0
      /\ forallb (fun e => negb (is_subprocess_event e))
           (emitted s (macos_version h s)) = true)
  /\ (environ s "CONDA_OVERRIDE_LINUX" = Some S0 ->
      outcome (linux_version h s) = Ret S0
      /\ forallb (fun e => negb (is_subprocess_event e))
           (emitted s (linux_version h s)) = true).
Proof.
  intros NE. split; [|split]; intros E; split.
  - now rewrite (windows_override h s S0 NE E).
  - rewrite (windows_override h s S0 NE E).
    erewrite emitted_app; [|reflexivity]. reflexivity.
  - now rewrite (macos_override h s S0 NE E).
  - rewrite (macos_override h s S0 NE E).
    erewrite emitted_app; [|reflexivity]. reflexivity.
  - now rewrite (linux_override h s S0 NE E).
  - rewrite (linux_override h s S0 NE E).
    erewrite emitted_app; [|reflexivity]. reflexivity.
Qed.

Lemma override_returned_verbatim_witness :
  let h := plain_host OtherOS EmptyString in
  let s := fresh (every_variable "10.0.19041") in
  outcome (windows_version h s) = Ret "10.0.19041"
  /\ outcome (macos_version h s) = Ret "10.0.19041"
  /\ outcome (linux_version h s) = Ret "10.0.19041".
Proof.
  intros h s.
  destruct (override_returned_verbatim h s "10.0.19041") as (W & O & L).
  - discriminate.
  - split; [apply W; reflexivity | split; [apply O | apply L]; reflexivity].
Defined.

(** ** PrivilegeManager: elevation *)

Ltac trace_normalize :=
  unfold emitted; simpl; repeat rewrite <- app_assoc; simpl;
  rewrite skipn_length_app.




(** ** ConsoleEncodingManager *)

Section Console.

Variable h : Host.

(** Calls other than [init_console] leave the three globals alone. *)
Lemma console_step_globals (s : State) (c : console_call) :
  is_init c = false ->
  init_console_initialized (console_step h s c) = init_console_initialized s
  /\ init_console_cp (console_step h s c) = init_console_cp s
  /\ init_console_output_cp (console_step h s c) = init_console_output_cp s.
Proof.
  destruct c as [| |i o]; intros NotInit; try discriminate; simpl.
  - unfold reset_console. monad_unfold.
    destruct (os h); simpl; auto.
    destruct (init_console_initialized s) eqn:I; simpl; auto.
  - auto.
Qed.

Lemma console_run_globals (calls : list console_call) (s : State) :
  forallb (fun c => negb (is_init c)) calls = true ->
  init_console_initialized (console_run h calls s) = init_console_initialized s
  /\ init_console_cp (console_run h calls s) = init_console_cp s
  /\ init_console_output_cp (console_run h calls s) = init_console_output_cp s.
Proof.
  revert s. induction calls as [|c calls IH]; intros s NoInit; simpl in *.
  - auto.
  - apply andb_true_iff in NoInit. destruct NoInit as [Hc Hrest].
    apply negb_true_iff in Hc.
    destruct (console_step_globals s c Hc) as (E1 & E2 & E3).
    destruct (IH (console_step h s c) Hrest) as (F1 & F2 & F3).
    unfold console_run in *. simpl. rewrite F1, F2, F3. auto.
Qed.

Lemma reset_uninitialized (s : State) :
  init_console_initialized s = false -> reset_console h s = (Ret tt, s).
Proof.
  intros I. unfold reset_console. monad_unfold.
  destruct (os h); simpl; rewrite ?I; reflexivity.
Qed.

Lemma init_captures (s : State) :
  os h = Windows ->
  let s1 := final (init_console h s) in
  init_console_initialized s1 = true
  /\ init_console_cp s1 = console_cp s
  /\ init_console_output_cp s1 = console_output_cp s
  /\ console_cp s1 = CP_UTF8
  /\ console_output_cp s1 = CP_UTF8.
Proof.
  intros W. unfold init_console. monad_unfold. rewrite W. simpl. auto.
Qed.

Lemma reset_initialized (s : State) :
  os h = Windows ->
  init_console_initialized s = true ->
  console_cp (final (reset_console h s)) = init_console_cp s
  /\ console_output_cp (final (reset_console h s)) = init_console_output_cp s.
Proof.
  intros W I. unfold reset_console. monad_unfold. rewrite W. simpl.
  rewrite I. simpl. auto.
Qed.

End Console.

(** C8.  In a process that never called [init_console], whatever else it
    did to the console, [reset_console] changes nothing at all; and once
    [init_console] has run, [reset_console] gives the console the input and
    output codepages it had when [init_console] (the most recent call of
    it) captured them, before it forced UTF-8. *)
Theorem reset_console_guarded (h : Host) :
  (forall env registry cp output_cp calls,
      forallb (fun c => negb (is_init c)) calls = true ->
      let s := console_run h calls (process_start env registry cp output_cp) in
      reset_console h s = (Ret tt, s))
  /\ (os h = Windows ->
      forall s calls,
        forallb (fun c => negb (is_init c)) calls = true ->
        let captured := final (init_console h s) in
        let s' := final (reset_console h (console_run h calls captured)) in
        console_cp captured = CP_UTF8
        /\ console_output_cp captured = CP_UTF8
        /\ console_cp s' = console_cp s
        /\ console_output_cp s' = console_output_cp s).
Proof.
  split.
  - intros env registry cp output_cp calls NoInit s.
    apply reset_uninitialized. subst s.
    destruct (console_run_globals h calls
                (process_start env registry cp output_cp) NoInit) as (E & _).
    rewrite E. reflexivity.
  - intros W s calls NoInit captured s'.
    destruct (init_captures h s W) as (I & C & O & U1 & U2).
    destruct (console_run_globals h calls captured NoInit) as (E1 & E2 & E3).
    fold captured in I, C, O, U1, U2.
    assert (Init : init_console_initialized (console_run h calls captured) = true)
      by (rewrite E1; exact I).
    destruct (reset_initialized h _ W Init) as (R1 & R2).
    subst s'. rewrite R1, R2, E2, E3, C, O. auto.
Qed.

Lemma reset_console_guarded_witness :
  let h := plain_host Windows EmptyString in
  let s := fresh no_env in
  reset_console h (console_run h [CallReset; Chcp 850 850; CallReset] s) =
    (Ret tt, console_run h [CallReset; Chcp 850 850; CallReset] s)
  /\ console_cp
       (final (reset_console h
                 (console_run h [Chcp 1252 1252] (final (init_console h s)))))
     = 437%Z.
Proof.
  intros h s. split.
  - apply (proj1 (reset_console_guarded h) no_env (Some 0%Z) 437%Z 437%Z
             [CallReset; Chcp 850 850; CallReset]).
    reflexivity.
  - apply (proj2 (reset_console_guarded h) eq_refl s [Chcp 1252 1252] eq_refl).
Defined.

(** ** Wide strings to UTF-8 *)

Lemma to_utf8_empty (h : Host) (s : State) :
  to_utf8 h [] s = (Ret EmptyString, s).
Proof. reflexivity. Qed.

Lemma to_utf8_failure (h : Host) (w : wstring) (s : State) :
  w <> [] ->
  (Z.of_nat (List.length w) <= INT_MAX)%Z ->
  (fst (wc_to_mb h w 0) <= 0)%Z ->
  outcome (to_utf8 h w s)
  = Throw (runtime_error "Failed to convert string to UTF-8")
  /\ emitted s (to_utf8 h w s)
     = [WideCharToMultiByte (Z.of_nat (List.length w)) 0;
        Log LError ("Failed to convert string to UTF-8 "
                    ++ system_message h (GetLastError h))].
Proof.
  intros NE Bound Fail. unfold to_utf8, call_WideCharToMultiByte.
  destruct (Z.of_nat (List.length w) =? 0)%Z eqn:Z0.
  { apply Z.eqb_eq in Z0. destruct w; [congruence | simpl in Z0; lia]. }
  apply Z.leb_le in Bound, Fail.
  monad_unfold. simpl negb. cbv iota. rewrite Bound. simpl.
  rewrite Fail. simpl. split; [reflexivity|].
  trace_normalize. reflexivity.
Qed.

Lemma to_utf8_late_failure (h : Host) (w : wstring) (s : State) (size : Z) :
  w <> [] ->
  (Z.of_nat (List.length w) <= INT_MAX)%Z ->
  fst (wc_to_mb h w 0) = size -> (0 < size)%Z ->
  fst (wc_to_mb h w size) <> size ->
  outcome (to_utf8 h w s) = Fault (AssertionFailed "res_size == size")
  /\ emitted s (to_utf8 h w s)
     = [WideCharToMultiByte (Z.of_nat (List.length w)) 0;
        WideCharToMultiByte (Z.of_nat (List.length w)) size].
Proof.
  intros NE Bound Size Positive Late. unfold to_utf8, call_WideCharToMultiByte.
  destruct (Z.of_nat (List.length w) =? 0)%Z eqn:Z0.
  { apply Z.eqb_eq in Z0. destruct w; [congruence | simpl in Z0; lia]. }
  apply Z.leb_le in Bound.
  monad_unfold. simpl negb. cbv iota. rewrite Bound. cbn [fst snd].
  rewrite Size.
  replace (size <=? 0)%Z with false by (symmetry; apply Z.leb_gt; exact Positive).
  cbn [fst snd].
  replace (fst (wc_to_mb h w size) =? size)%Z with false
    by (symmetry; apply Z.eqb_neq; exact Late).
  split; [reflexivity|]. trace_normalize. reflexivity.
Qed.

(** C7, as the code has it.  On a zero-length input [to_utf8] returns the
    empty string and does nothing else (the conversion facility is not
    called).  On a non-empty input of at most [INT_MAX] characters (the
    bound the function asserts) for which the first call of the facility,
    the size query, returns no positive size, it raises a
    [std::runtime_error] with the fixed message "Failed to convert string
    to UTF-8"; the error text the OS reports goes to an error-level log
    event, not into the exception.  A failure that shows only in the
    second call (it returns another size than the query) is not raised
    and not logged: the code has an assertion [res_size == size] there
    and nothing else. *)
Theorem to_utf8_contract (h : Host) (s : State) :
  to_utf8 h [] s = (Ret EmptyString, s)
  /\ (forall w : wstring,
         w <> [] ->
         (Z.of_nat (List.length w) <= INT_MAX)%Z ->
         (fst (wc_to_mb h w 0) <= 0)%Z ->
         outcome (to_utf8 h w s)
         = Throw (runtime_error "Failed to convert string to UTF-8")
         /\ emitted s (to_utf8 h w s)
            = [WideCharToMultiByte (Z.of_nat (List.length w)) 0;
               Log LError ("Failed to convert string to UTF-8 "
                           ++ system_message h (GetLastError h))])
  /\ (forall (w : wstring) (size : Z),
         w <> [] ->
         (Z.of_nat (List.length w) <= INT_MAX)%Z ->
         fst (wc_to_mb h w 0) = size -> (0 < size)%Z ->
         fst (wc_to_mb h w size) <> size ->
         outcome (to_utf8 h w s) = Fault (AssertionFailed "res_size == size")
         /\ emitted s (to_utf8 h w s)
            = [WideCharToMultiByte (Z.of_nat (List.length w)) 0;
               WideCharToMultiByte (Z.of_nat (List.length w)) size]).
Proof.
  split; [apply to_utf8_empty|].
  split; [intros w; apply to_utf8_failure | intros w size; apply to_utf8_late_failure].
Qed.

Lemma to_utf8_contract_witness :
  (outcome (to_utf8 failing_conversion_host [55296%Z] (fresh no_env))
   = Throw (runtime_error "Failed to convert string to UTF-8")
   /\ emitted (fresh no_env) (to_utf8 failing_conversion_host [55296%Z] (fresh no_env))
      = [WideCharToMultiByte 1 0;
         Log LError ("Failed to convert string to UTF-8 " ++ no_translation)])
  /\ (outcome (to_utf8 late_failure_host [55296%Z] (fresh no_env))
      = Fault (AssertionFailed "res_size == size")
      /\ emitted (fresh no_env) (to_utf8 late_failure_host [55296%Z] (fresh no_env))
         = [WideCharToMultiByte 1 0; WideCharToMultiByte 1 3]).
Proof.
  split.
  - apply (proj1 (proj2 (to_utf8_contract failing_conversion_host (fresh no_env)))
             [55296%Z]).
    + discriminate.
    + vm_compute. discriminate.
    + simpl. lia.
  - apply (proj2 (proj2 (to_utf8_contract late_failure_host (fresh no_env)))
             [55296%Z] 3%Z).
    + discriminate.
    + vm_compute. discriminate.
    + reflexivity.
    + lia.
    + simpl. lia.
Defined.

(** C7 as the spec words it fails: on a host where the conversion of a
    lone surrogate is refused with "No mapping for the Unicode character
    ...", the exception [to_utf8] raises does not carry that text. *)
Lemma to_utf8_error_text_not_carried :
  let h := failing_conversion_host in
  let w := [55296%Z] in
  (fst (wc_to_mb h w 0) <= 0)%Z
  /\ ~ (exists e, outcome (to_utf8 h w (fresh no_env)) = Throw e
                  /\ is_infix (system_message h (GetLastError h)) (what e) = true).
Proof.
  intros h w. split.
  - simpl. lia.
  - intros (e & Raised & Carried).
    vm_compute in Raised. injection Raised as <-.
    vm_compute in Carried. discriminate Carried.
Qed.

(** ** PrivilegeManager: the version gate of [enable_long_paths_support] *)

Lemma bind_ret {A B : Type} (m : M A) (k : A -> M B) (s s1 : State) (a : A) :
  m s = (Ret a, s1) -> bind m k s = k a s1.
Proof. unfold bind. intros ->. reflexivity. Qed.

Lemma bind_throw {A B : Type} (m : M A) (k : A -> M B) (s s1 : State) (e : exn) :
  m s = (Throw e, s1) -> bind m k s = (Throw e, s1).
Proof. unfold bind. intros ->. reflexivity. Qed.

Lemma registry_free_ret {A : Type} (a : A) : registry_free (ret a).
Proof. intros s. exists []. simpl. rewrite app_nil_r. auto. Qed.

Lemma registry_free_undefined {A : Type} (f : fault) :
  registry_free (@undefined A f).
Proof. intros s. exists []. simpl. rewrite app_nil_r. auto. Qed.

Lemma registry_free_emit (e : event) :
  is_registry_event e = false -> registry_free (emit e).
Proof. intros E s. exists [e]. simpl. rewrite E. auto. Qed.

Lemma registry_free_bind {A B : Type} (m : M A) (k : A -> M B) :
  registry_free m -> (forall a, registry_free (k a)) -> registry_free (bind m k).
Proof.
  intros Hm Hk s. destruct (Hm s) as (evs & T & R & L).
  unfold bind. destruct (m s) as [[a|e|f] s1]; unfold final in T, L; simpl in T, L.
  - destruct (Hk a s1) as (evs' & T' & R' & L').
    exists (evs ++ evs'). rewrite T', T, app_assoc, forallb_app, R, R', L', L. auto.
  - eauto.
  - eauto.
Qed.

Lemma registry_free_env_get (name : string) : registry_free (env_get name).
Proof. intros s. exists []. simpl. rewrite app_nil_r. auto. Qed.

Lemma registry_free_at_index (v : list string) (i : nat) :
  registry_free (at_index v i).
Proof.
  unfold at_index. destruct (nth_error v i).
  - apply registry_free_ret.
  - apply registry_free_undefined.
Qed.

Ltac registry_free_step :=
  first
    [ apply registry_free_env_get
    | apply registry_free_at_index
    | apply registry_free_bind; [|intro]
    | apply registry_free_ret
    | apply registry_free_emit; reflexivity
    | match goal with
      | |- registry_free (match ?x with _ => _ end) => destruct x
      end ].

Section VersionGate.

Variable h : Host.

Lemma windows_version_registry_free : registry_free (windows_version h).
Proof.
  unfold windows_version, log, run. repeat registry_free_step.
Qed.

Lemma component_value_inv (ver : string) (i : nat) (v : Z) :
  component_value ver i = Some v ->
  exists e, nth_error (components ver) i = Some e /\ stoull e = Parsed v.
Proof.
  unfold component_value.
  destruct (nth_error (components ver) i) as [e|]; [|discriminate].
  destruct (stoull e) as [v'| |] eqn:P; try discriminate.
  intros [= <-]. eauto.
Qed.

(** The gate is closed without an exception in three cases. *)
Lemma version_supported_false (ver : string) (s : State) :
  (List.length (components ver) < 3
   \/ exists major, component_value ver 0 = Some major
                    /\ ((major < 10)%Z
                        \/ exists build, component_value ver 2 = Some build
                                         /\ (build < 14352)%Z)) ->
  version_supported (components ver) s = (Ret false, s).
Proof.
  unfold version_supported.
  intros [Short | (major & V0 & Rest)].
  - apply Nat.leb_gt in Short. rewrite Short. reflexivity.
  - destruct (3 <=? List.length (components ver))%nat; [|reflexivity].
    apply component_value_inv in V0. destruct V0 as (e0 & C0 & P0).
    monad_unfold. rewrite C0, P0. cbv beta iota.
    destruct (10 <=? major)%Z eqn:Major; [|reflexivity].
    apply Z.leb_le in Major.
    destruct Rest as [Low | (build & V2 & Low)]; [lia|].
    apply component_value_inv in V2. destruct V2 as (e2 & C2 & P2).
    rewrite C2, P2. cbv beta iota.
    replace (14352 <=? build)%Z with false
      by (symmetry; apply Z.leb_gt; exact Low).
    reflexivity.
Qed.

(** The gate throws when the first component does not convert, or when
    it converts to 10 or more and the third one does not convert. *)
Lemma version_supported_throws (ver e0 e2 : string) (s : State) :
  nth_error (components ver) 0 = Some e0 ->
  nth_error (components ver) 2 = Some e2 ->
  ((forall v, stoull e0 <> Parsed v)
   \/ exists major, stoull e0 = Parsed major /\ (10 <= major)%Z
                    /\ forall v, stoull e2 <> Parsed v) ->
  exists e, version_supported (components ver) s = (Throw e, s)
            /\ (e = invalid_argument "stoull" \/ e = out_of_range "stoull").
Proof.
  intros C0 C2 Bad. unfold version_supported.
  assert (Long : (3 <=? List.length (components ver))%nat = true).
  { apply Nat.leb_le.
    assert (2 < List.length (components ver))
      by (apply nth_error_Some; rewrite C2; discriminate).
    lia. }
  rewrite Long. monad_unfold. rewrite C0, C2.
  destruct Bad as [Bad0 | (major & P0 & Major & Bad2)].
  - destruct (stoull e0) as [v| |]; [exfalso; eapply Bad0; reflexivity | |];
      eexists; split; eauto.
  - rewrite P0. apply Z.leb_le in Major. cbv beta iota. rewrite Major.
    destruct (stoull e2) as [v| |]; [exfalso; eapply Bad2; reflexivity | |];
      eexists; split; eauto.
Qed.

(** [windows_version] logs and may run the version command; it never
    touches the registry. *)
Lemma windows_version_frame (s : State) :
  let r := windows_version h s in
  trace (final r) = trace s ++ emitted s r
  /\ forallb (fun e => negb (is_registry_event e)) (emitted s r) = true
  /\ LongPathsEnabled (final r) = LongPathsEnabled s.
Proof.
  destruct (windows_version_registry_free s) as (evs & T & R & L). simpl.
  rewrite (emitted_app _ _ _ T). auto.
Qed.

End VersionGate.

(** C3, as the code has it.  When the host version string has fewer than
    three dot-separated components, or its first component converts to a
    number below 10, or its first component converts and its third one
    converts to a number below 14352, [enable_long_paths_support] returns
    [false] for both values of [force]; the last thing it does is to log the
    warning, no registry access is among its events, and the registry value
    is what it was. *)
Theorem long_paths_gate_closed (h : Host) (force : bool) (s s1 : State) (ver : string) :
  windows_version h s = (Ret ver, s1) ->
  (List.length (components ver) < 3
   \/ exists major, component_value ver 0 = Some major
                    /\ ((major < 10)%Z
                        \/ exists build, component_value ver 2 = Some build
                                         /\ (build < 14352)%Z)) ->
  let r := enable_long_paths_support h force s in
  outcome r = Ret false
  /\ trace (final r) = trace s1 ++ [Log LWarning version_warning]
  /\ forallb (fun e => negb (is_registry_event e)) (emitted s r) = true
  /\ LongPathsEnabled (final r) = LongPathsEnabled s.
Proof.
  intros Version Below r.
  destruct (windows_version_frame h s) as (T & R & L).
  rewrite Version in T, R, L. unfold final in T, L. simpl in T, L.
  assert (Run : r = (Ret false, snd (log LWarning version_warning s1))).
  { subst r. unfold enable_long_paths_support.
    rewrite (bind_ret _ _ _ _ _ Version). fold (components ver).
    rewrite (bind_ret _ _ _ _ _ (version_supported_false ver s1 Below)).
    reflexivity. }
  rewrite Run. unfold outcome, final. simpl.
  split; [reflexivity|]. split; [reflexivity|]. split; [|exact L].
  erewrite emitted_app.
  2:{ unfold final. simpl. rewrite T, <- app_assoc. reflexivity. }
  rewrite forallb_app, R. reflexivity.
Qed.

Lemma long_paths_gate_closed_witness :
  let h := plain_host Windows EmptyString in
  let s := fresh (env_with "CONDA_OVERRIDE_WIN" "10.0.10240") in
  let r := enable_long_paths_support h true s in
  outcome r = Ret false
  /\ trace (final r)
     = [Log LDebug "Loading Windows virtual package"; Log LWarning version_warning]
  /\ forallb (fun e => negb (is_registry_event e)) (emitted s r) = true
  /\ LongPathsEnabled (final r) = Some 0%Z.
Proof.
  intros h s.
  apply (long_paths_gate_closed h true s
           (snd (log LDebug "Loading Windows virtual package" s)) "10.0.10240").
  - reflexivity.
  - right. exists 10%Z. split; [reflexivity|].
    right. exists 10240%Z. split; [reflexivity | lia].
Defined.

(** C3 as the spec words it fails: in "abc.0.100" the third component is
    100, which is below 14352, and yet the call does not return [false]:
    the conversion of the first component throws. *)
Lemma long_paths_gate_third_component_alone :
  let h := plain_host Windows EmptyString in
  let s := fresh (env_with "CONDA_OVERRIDE_WIN" "abc.0.100") in
  outcome (windows_version h s) = Ret "abc.0.100"
  /\ component_value "abc.0.100" 2 = Some 100%Z
  /\ (100 < 14352)%Z
  /\ forall force,
      outcome (enable_long_paths_support h force s) <> Ret false.
Proof.
  intros h s. split; [reflexivity|]. split; [reflexivity|]. split; [lia|].
  intros [|]; vm_compute; discriminate.
Qed.

(** C10, as the code has it.  With at least three components, when the
    first one does not convert, or converts to 10 or more while the third
    one does not convert, [enable_long_paths_support] raises the exception
    of [std::stoull] ([std::invalid_argument] or [std::out_of_range]) right
    after the version was obtained, and returns nothing. *)
Theorem long_paths_gate_throws (h : Host) (force : bool) (s s1 : State)
  (ver e0 e2 : string) :
  windows_version h s = (Ret ver, s1) ->
  nth_error (components ver) 0 = Some e0 ->
  nth_error (components ver) 2 = Some e2 ->
  ((forall v, stoull e0 <> Parsed v)
   \/ exists major, stoull e0 = Parsed major /\ (10 <= major)%Z
                    /\ forall v, stoull e2 <> Parsed v) ->
  exists e, enable_long_paths_support h force s = (Throw e, s1)
            /\ is_parse_error e.
Proof.
  intros Version C0 C2 Bad.
  destruct (version_supported_throws ver e0 e2 s1 C0 C2 Bad) as (e & Thrown & Kind).
  exists e. split.
  - unfold enable_long_paths_support.
    rewrite (bind_ret _ _ _ _ _ Version). fold (components ver).
    apply bind_throw. exact Thrown.
  - destruct Kind as [-> | ->]; exact I.
Qed.

Lemma long_paths_gate_throws_witness :
  let h := plain_host Windows EmptyString in
  let s := fresh (env_with "CONDA_OVERRIDE_WIN" "10.0.next") in
  exists e,
    enable_long_paths_support h false s
    = (Throw e, snd (log LDebug "Loading Windows virtual package" s))
    /\ is_parse_error e.
Proof.
  intros h s.
  apply (long_paths_gate_throws h false s _ "10.0.next" "10" "next").
  - reflexivity.
  - reflexivity.
  - reflexivity.
  - right. exists 10%Z. split; [reflexivity|]. split; [lia|].
    intros v. vm_compute. discriminate.
Defined.

(** C10 as stated fails: in "6.1.abc" the third component is no number,
    but the first one is 6, so the third is never converted and the call
    returns [false]. *)
Lemma long_paths_gate_short_circuit :
  let h := plain_host Windows EmptyString in
  let s := fresh (env_with "CONDA_OVERRIDE_WIN" "6.1.abc") in
  outcome (windows_version h s) = Ret "6.1.abc"
  /\ 3 <= List.length (components "6.1.abc")
  /\ nth_error (components "6.1.abc") 2 = Some "abc"
  /\ stoull "abc" = InvalidArgument
  /\ forall force, outcome (enable_long_paths_support h force s) = Ret false.
Proof.
  intros h s. split; [reflexivity|]. split; [vm_compute; lia|].
  split; [reflexivity|]. split; [reflexivity|].
  intros [|]; reflexivity.
Qed.

(** ** PathResolver *)

Section SelfExePath.

Variables (h : Host) (path : wstring).
Hypothesis exe_at : module_file_name h = Some path.
Hypothesis no_null : Forall (fun c => c <> 0%Z) path.
Hypothesis long : 260 <= List.length path.

Let cut : wstring := firstn 259 path ++ [0%Z].

Lemma cut_length : List.length cut = 260.
Proof.
  unfold cut. rewrite length_app, firstn_length_le; simpl; lia.
Qed.

(** Asked for 260 characters, the OS hands back 259 of them and a null,
    and says so by returning 260. *)
Lemma GetModuleFileNameW_truncates (buffer : wstring) :
  List.length buffer = 260 ->
  GetModuleFileNameW h buffer (DWORD 260) = (cut, 260%Z).
Proof.
  intros Len. unfold GetModuleFileNameW. rewrite exe_at.
  change (DWORD 260) with 260%Z. change (260 <=? 0)%Z with false. cbv iota.
  replace (Z.of_nat (List.length path) <? 260)%Z with false
    by (symmetry; apply Z.ltb_ge; lia).
  change (Z.to_nat (260 - 1)) with 259. fold cut.
  unfold overwrite. rewrite cut_length, skipn_all2 by lia.
  rewrite app_nil_r. reflexivity.
Qed.

Lemma find_null_at (l r : wstring) (i : Z) :
  Forall (fun c => c <> 0%Z) l ->
  find_null (l ++ 0%Z :: r) i = (i + Z.of_nat (List.length l))%Z.
Proof.
  intros NoNull. revert i.
  induction NoNull as [|c l Hc _ IH]; intros i; simpl.
  - lia.
  - apply Z.eqb_neq in Hc. rewrite Hc, IH. lia.
Qed.

Lemma find_null_cut : find_null cut 0 = 259%Z.
Proof.
  unfold cut. rewrite find_null_at.
  - rewrite firstn_length_le by lia. reflexivity.
  - rewrite <- (firstn_skipn 259 path) in no_null.
    apply Forall_app in no_null. apply no_null.
Qed.

(** The retry asks for 260 characters again: [reserve] has not changed
    [buffer.size()].  The doubled [new_size] is 520, the OS returns 260,
    and the loop is left after its first round with the cut path. *)
Lemma grow_one_round (fuel : nat) :
  grow h (S fuel) 260 (mkBuf cut MAX_PATH) = Some (mkBuf cut 520, 260%Z).
Proof.
  cbn [grow]. unfold reserve, buffer_size. cbn [chars capacity].
  rewrite cut_length. change (Z.of_nat 260) with 260%Z.
  rewrite (GetModuleFileNameW_truncates cut cut_length).
  reflexivity.
Qed.

Lemma get_self_exe_path_truncates (fuel : nat) :
  get_self_exe_path h (S fuel) = Some (Ret (fs_absolute h (firstn 259 path))).
Proof.
  unfold get_self_exe_path, buffer_size. cbn [chars capacity].
  rewrite repeat_length. change (Z.of_nat (Z.to_nat MAX_PATH)) with 260%Z.
  rewrite (GetModuleFileNameW_truncates (repeat 0%Z (Z.to_nat MAX_PATH)))
    by apply repeat_length.
  change (260 =? 0)%Z with false. cbn [chars capacity].
  rewrite cut_length. change (260 =? Z.of_nat 260)%Z with true. cbv iota.
  rewrite grow_one_round. cbn [chars capacity].
  rewrite find_null_cut. unfold resize.
  change (max_size <? 259)%Z with false. cbn [chars capacity].
  change (Z.to_nat 259) with 259. rewrite cut_length.
  change (repeat 0%Z (259 - 260)) with (@nil Z).
  rewrite app_nil_r. unfold cut.
  rewrite firstn_app, firstn_firstn, firstn_length_le by lia.
  change (259 - 259) with 0. rewrite Nat.min_id. simpl firstn at 2.
  rewrite app_nil_r. reflexivity.
Qed.

End SelfExePath.

(** C1 against the code.  On a host whose executable path has 300
    characters the OS signals truncation, the retry loop runs (one round is
    all it ever takes), and what [get_self_exe_path] returns is the first
    259 characters of the path: a proper prefix of the true path. *)
Theorem get_self_exe_path_returns_truncated_prefix :
  forall fuel,
    get_self_exe_path long_path_host (S fuel) = Some (Ret (firstn 259 long_exe_path))
    /\ List.length (firstn 259 long_exe_path) = 259
    /\ List.length long_exe_path = 300
    /\ firstn 259 long_exe_path <> long_exe_path.
Proof.
  intros fuel. split; [|split; [reflexivity | split; [reflexivity|]]].
  - apply (get_self_exe_path_truncates long_path_host long_exe_path).
    + reflexivity.
    + unfold long_exe_path. apply Forall_forall. intros c In0.
      apply in_app_or in In0. destruct In0 as [In0 | In0].
      * simpl in In0. intuition lia.
      * apply in_app_or in In0. destruct In0 as [In0 | In0].
        -- apply repeat_spec in In0. lia.
        -- simpl in In0. intuition lia.
    + vm_compute. lia.
  - intros Eq. apply (f_equal (@List.length Z)) in Eq. vm_compute in Eq. discriminate.
Qed.

(** ** VersionDetector: parsing the output of [ver] *)

Section VerOutput.

Variables (h : Host) (s : State) (banner : string).
Hypothesis no_override : env_value s "CONDA_OVERRIDE_WIN" = EmptyString.
Hypothesis windows : os h = Windows.
Hypothesis ver_ran : prints h [env_value s "COMSPEC"; "/c"; "ver"] banner.

(** Up to the parse, [windows_version] is the match of the pattern
    against the stripped output. *)
Lemma windows_version_parses :
  outcome (windows_version h s)
  = match regex_match ver_output_regex (strip banner) with
    | Some rmatch =>
        match split (sub rmatch 3) "." with
        | e0 :: e1 :: e2 :: _ => Ret (concat [e0; "."; e1; "."; e2])
        | l => Fault (OutOfBounds (List.length l) (List.length l))
        end
    | None => Ret "0.0.0"
    end.
Proof.
  destruct ver_ran as (NoError & Out).
  unfold env_value in *. unfold windows_version, on_win. monad_unfold.
  cbn [environ trace]. rewrite no_override, windows. cbn [Str.empty negb environ].
  rewrite NoError, Out.
  destruct (regex_match ver_output_regex (strip banner)) as [rmatch|];
    [|reflexivity].
  destruct (split (sub rmatch 3) ".") as [|e0 [|e1 [|e2 rest]]]; reflexivity.
Qed.

End VerOutput.

(** C2 against the code.  "Microsoft Windows [Version 10]" has the shape
    of the pattern (a name, a version token, a bracket that ends with a
    build token), and the matcher accepts it with the groups "Microsoft",
    "Windows" and "10".  The third group has a single component, so there
    are no three components to join: [version_els[1]] is read out of
    bounds, and [windows_version] returns no string at all, neither
    "major.minor.patch" nor the sentinel. *)
Theorem windows_version_one_component_out_of_bounds :
  let banner := "Microsoft Windows [Version 10]" in
  let h := plain_host Windows banner in
  strip banner
  = ("Microsoft" ++ " " ++ "Windows" ++ " " ++ EmptyString ++ "["
     ++ "Version" ++ " " ++ "10" ++ "]")%string
  /\ option_map (fun m => (sub m 1, sub m 2, sub m 3))
       (regex_match ver_output_regex (strip banner))
     = Some ("Microsoft", "Windows", "10")
  /\ split "10" "." = ["10"]
  /\ outcome (windows_version h (fresh no_env)) = Fault (OutOfBounds 1 1)
  /\ forall v, outcome (windows_version h (fresh no_env)) <> Ret v.
Proof.
  intros banner h.
  split; [vm_compute; reflexivity|].
  split; [vm_compute; reflexivity|].
  split; [vm_compute; reflexivity|].
  assert (Run : outcome (windows_version h (fresh no_env)) = Fault (OutOfBounds 1 1))
    by (vm_compute; reflexivity).
  split; [exact Run|]. intros v. rewrite Run. discriminate.
Qed.

(** C9 against the code.  "Microsoft Windows [Version 10.0]" is accepted
    by the pattern; its third group is "10.0", which splits into two
    components; the access to component 2 is out of bounds. *)
Theorem windows_version_two_components_out_of_bounds :
  let banner := "Microsoft Windows [Version 10.0]" in
  let h := plain_host Windows banner in
  option_map (fun m => sub m 3) (regex_match ver_output_regex (strip banner))
  = Some "10.0"
  /\ split "10.0" "." = ["10"; "0"]
  /\ outcome (windows_version h (fresh no_env)) = Fault (OutOfBounds 2 2).
Proof.
  intros banner h. split; [|split]; vm_compute; reflexivity.
Qed.

(** ** Facts on strings *)

Module StrFacts.

Lemma append_assoc (a b c : string) : ((a ++ b) ++ c = a ++ b ++ c)%string.
Proof. induction a as [|x a IH]; simpl; [reflexivity | now rewrite IH]. Qed.

Lemma length_append (a b : string) :
  String.length (a ++ b) = String.length a + String.length b.
Proof. induction a as [|x a IH]; simpl; [reflexivity | now rewrite IH]. Qed.

Lemma substring_head (v rest : string) :
  String.substring 0 (String.length v) (v ++ rest) = v.
Proof.
  induction v as [|x v IH]; simpl.
  - destruct rest; reflexivity.
  - now rewrite IH.
Qed.

Lemma substring_at (pre v rest : string) :
  String.substring (String.length pre) (String.length v) (pre ++ v ++ rest) = v.
Proof.
  induction pre as [|x pre IH]; simpl.
  - apply substring_head.
  - exact IH.
Qed.

(** The longest run of characters of a class, when the text goes on
    with a character outside of it. *)
Lemma take_while_run (p : ascii -> bool) (a : string) (c : ascii) (rest : string) :
  Str.forallb p a = true -> p c = false ->
  Str.take_while p (a ++ String c rest) = a
  /\ Str.drop_while p (a ++ String c rest) = String c rest.
Proof.
  intros All Stop. induction a as [|x a IH]; simpl in *.
  - now rewrite Stop.
  - apply andb_true_iff in All. destruct All as [Px All].
    rewrite Px. destruct (IH All) as [-> ->]. auto.
Qed.

Lemma take_drop_while (p : ascii -> bool) (s : string) :
  (Str.take_while p s ++ Str.drop_while p s)%string = s.
Proof.
  induction s as [|x s IH]; simpl; [reflexivity|].
  destruct (p x); simpl; [now rewrite IH | reflexivity].
Qed.

Lemma take_while_all (p : ascii -> bool) (s : string) :
  Str.forallb p (Str.take_while p s) = true.
Proof.
  induction s as [|x s IH]; simpl; [reflexivity|].
  destruct (p x) eqn:Px; simpl; [now rewrite Px | reflexivity].
Qed.

Lemma empty_iff (s : string) : Str.empty s = true <-> s = EmptyString.
Proof. destruct s; simpl; split; intros; congruence. Qed.

End StrFacts.

(** ** The matcher on the kernel release pattern *)

Section Matcher.

(** A repetition followed by something that cannot start with a
    character of the class never gives anything back. *)
Lemma greedy_commit (cs : cset) (k : cont) :
  (forall c s' p m, mem cs c = true -> k (String c s') p m = None) ->
  forall s pos m,
    greedy cs k s pos m
    = k (Str.drop_while (mem cs) s)
        (pos + String.length (Str.take_while (mem cs) s)) m.
Proof.
  intros Rejects. induction s as [|x s IH]; intros pos m; simpl.
  - now rewrite Nat.add_0_r.
  - destruct (mem cs x) eqn:In; simpl.
    + rewrite IH, (Rejects x s pos m In), Nat.add_succ_r.
      now destruct (k _ _ m).
    + now rewrite Nat.add_0_r.
Qed.

(** A repetition at the end of a search pattern always succeeds, with
    the registers as they are. *)
Lemma greedy_last (cs : cset) (s : string) (pos : nat) (m : caps) :
  greedy cs (exec false []) s pos m = Some m.
Proof.
  revert pos. induction s as [|x s IH]; intros pos; simpl; [reflexivity|].
  destruct (mem cs x); [now rewrite IH | reflexivity].
Qed.

Lemma exec_literal (full : bool) (c : ascii) (re : regex) (s : string)
  (pos : nat) (m : caps) :
  exec full (Atom (Lit c) :: re) s pos m
  = match scan_char c s with
    | Some r => exec full re r (S pos) m
    | None => None
    end.
Proof. destruct s as [|d r]; simpl; [reflexivity | now destruct (Ascii.eqb d c)]. Qed.

Lemma exec_digits (full : bool) (re : regex) (s : string) (pos : nat) (m : caps) :
  (forall c s' p m', Chars.isdigit c = true ->
                     exec full re (String c s') p m' = None) ->
  exec full (Plus digit :: re) s pos m
  = match scan_int s with
    | Some (a, r) => exec full re r (pos + String.length a) m
    | None => None
    end.
Proof.
  intros Rejects. unfold scan_int. destruct s as [|x s]; simpl; [reflexivity|].
  change (Chars.in_range "0" "9" x) with (Chars.isdigit x).
  destruct (Chars.isdigit x) eqn:D; simpl; [|reflexivity].
  rewrite (greedy_commit digit (exec full re) Rejects), Nat.add_succ_r.
  reflexivity.
Qed.

Lemma digit_is_not (c d : ascii) :
  Chars.isdigit d = false -> Chars.isdigit c = true -> Ascii.eqb c d = false.
Proof.
  intros Nd Dc. destruct (Ascii.eqb_spec c d) as [->|]; [congruence | reflexivity].
Qed.

Lemma literal_rejects_digit (full : bool) (d : ascii) (re : regex) :
  Chars.isdigit d = false ->
  forall c s' p m', Chars.isdigit c = true ->
                    exec full (Atom (Lit d) :: re) (String c s') p m' = None.
Proof.
  intros Nd c s' p m' Dc. simpl. now rewrite (digit_is_not c d Nd Dc).
Qed.

Lemma close_literal_rejects_digit (full : bool) (n : nat) (d : ascii) (re : regex) :
  Chars.isdigit d = false ->
  forall c s' p m', Chars.isdigit c = true ->
                    exec full (Close n :: Atom (Lit d) :: re) (String c s') p m' = None.
Proof.
  intros Nd c s' p m' Dc. simpl. now rewrite (digit_is_not c d Nd Dc).
Qed.

(** At one position, the pattern matches what the scanner accepts, and
    group 1 is the version token. *)
Lemma exec_linux_regex (s : string) (pos : nat) :
  exec false linux_regex s pos no_caps
  = match version_prefix s with
    | Some (v, _) =>
        Some (mkCaps [(1, pos)] [(1, (pos, pos + String.length v))])
    | None => None
    end.
Proof.
  unfold linux_regex, version_prefix.
  change (exec false (Open 1 :: ?re) s pos no_caps)
    with (exec false re s pos (open_group 1 pos no_caps)).
  rewrite exec_digits by (apply literal_rejects_digit; reflexivity).
  destruct (scan_int s) as [[a s1]|]; [|reflexivity].
  rewrite exec_literal.
  destruct (scan_char "." s1) as [s2|]; [|reflexivity].
  rewrite exec_digits by (apply literal_rejects_digit; reflexivity).
  destruct (scan_int s2) as [[b s3]|]; [|reflexivity].
  rewrite exec_literal.
  destruct (scan_char "." s3) as [s4|]; [|reflexivity].
  rewrite exec_digits by (apply close_literal_rejects_digit; reflexivity).
  destruct (scan_int s4) as [[c s5]|]; [|reflexivity].
  change (exec false (Close 1 :: ?re) s5 ?p ?m)
    with (exec false re s5 p (close_group 1 p m)).
  rewrite exec_literal.
  destruct (scan_char "-" s5) as [post|]; [|reflexivity].
  change (exec false [Star Dot] post ?p ?m)
    with (greedy Dot (exec false []) post p m).
  rewrite greedy_last. unfold close_group, open_group, no_caps. simpl.
  repeat (rewrite StrFacts.length_append; simpl String.length).
  do 3 f_equal. f_equal. f_equal. lia.
Qed.

End Matcher.

Section Scanner.

Lemma scan_int_sound (s a r : string) :
  scan_int s = Some (a, r) -> int_token a /\ s = (a ++ r)%string.
Proof.
  unfold scan_int, int_token.
  destruct (Str.empty (Str.take_while Chars.isdigit s)) eqn:E; [discriminate|].
  intros [= <- <-]. split; [split|].
  - intros Nil. apply StrFacts.empty_iff in Nil. congruence.
  - apply StrFacts.take_while_all.
  - symmetry. apply StrFacts.take_drop_while.
Qed.

Lemma scan_int_complete (a : string) (c : ascii) (rest : string) :
  int_token a -> Chars.isdigit c = false ->
  scan_int (a ++ String c rest) = Some (a, String c rest).
Proof.
  intros [NonEmpty Digits] Stop. unfold scan_int.
  destruct (StrFacts.take_while_run Chars.isdigit a c rest Digits Stop) as [-> ->].
  destruct a; [congruence | reflexivity].
Qed.

Lemma scan_char_sound (c : ascii) (s r : string) :
  scan_char c s = Some r -> s = String c r.
Proof.
  destruct s as [|d s]; simpl; [discriminate|].
  destruct (Ascii.eqb_spec d c) as [->|]; [|discriminate].
  now intros [= ->].
Qed.

Lemma version_prefix_sound (s v post : string) :
  version_prefix s = Some (v, post) ->
  version_token v /\ s = (v ++ "-" ++ post)%string.
Proof.
  unfold version_prefix.
  destruct (scan_int s) as [[a s1]|] eqn:A; [|discriminate].
  destruct (scan_char "." s1) as [s2|] eqn:D1; [|discriminate].
  destruct (scan_int s2) as [[b s3]|] eqn:B; [|discriminate].
  destruct (scan_char "." s3) as [s4|] eqn:D2; [|discriminate].
  destruct (scan_int s4) as [[c s5]|] eqn:C; [|discriminate].
  destruct (scan_char "-" s5) as [post'|] eqn:H; [|discriminate].
  intros [= <- <-].
  apply scan_int_sound in A, B, C. apply scan_char_sound in D1, D2, H.
  destruct A as [Ta ->], B as [Tb ->], C as [Tc ->]. subst s1 s3 s5.
  split.
  - exists a, b, c. auto.
  - repeat (rewrite StrFacts.append_assoc; simpl). reflexivity.
Qed.

Lemma version_prefix_complete (v post : string) :
  version_token v ->
  version_prefix (v ++ "-" ++ post) = Some (v, post).
Proof.
  intros (a & b & c & Ta & Tb & Tc & ->).
  repeat (rewrite StrFacts.append_assoc; simpl).
  unfold version_prefix.
  rewrite (scan_int_complete a "." _ Ta eq_refl). simpl scan_char. cbv iota.
  rewrite (scan_int_complete b "." _ Tb eq_refl). simpl scan_char. cbv iota.
  rewrite (scan_int_complete c "-" _ Tc eq_refl). simpl scan_char. cbv iota.
  reflexivity.
Qed.

End Scanner.

Section Search.

Variable re : regex.

(** [regex_search] stops at the first start at which the pattern
    matches. *)
Lemma search_first (pre s' : string) :
  forall pos r,
    (forall pre1 s1, (pre ++ s' = pre1 ++ s1)%string ->
                     String.length pre1 < String.length pre ->
                     exec false re s1 (pos + String.length pre1) no_caps = None) ->
    exec false re s' (pos + String.length pre) no_caps = Some r ->
    search_from re (pre ++ s') pos = Some r.
Proof.
  induction pre as [|x pre IH]; intros pos r Earlier Here.
  - simpl in *. rewrite Nat.add_0_r in Here.
    destruct s'; simpl; now rewrite Here.
  - simpl append.
    assert (Start : exec false re (String x (pre ++ s')) pos no_caps = None).
    { specialize (Earlier EmptyString (String x (pre ++ s')) eq_refl).
      simpl in Earlier. rewrite Nat.add_0_r in Earlier.
      apply Earlier. lia. }
    cbn [search_from]. rewrite Start.
    apply IH.
    + intros pre1 s1 E L.
      specialize (Earlier (String x pre1) s1). simpl in Earlier.
      rewrite Nat.add_succ_r in Earlier. apply Earlier; [now rewrite E | lia].
    + simpl in Here. now rewrite Nat.add_succ_r in Here.
Qed.

(** What it finds is a match of the pattern at some start. *)
Lemma search_found (s : string) :
  forall pos r,
    search_from re s pos = Some r ->
    exists pre s', s = (pre ++ s')%string
                   /\ exec false re s' (pos + String.length pre) no_caps = Some r.
Proof.
  induction s as [|x s IH]; intros pos r Found.
  - exists EmptyString, EmptyString. split; [reflexivity|].
    simpl in *. rewrite Nat.add_0_r.
    destruct (exec false re EmptyString pos no_caps); [exact Found | discriminate].
  - cbn [search_from] in Found.
    destruct (exec false re (String x s) pos no_caps) as [r'|] eqn:Here.
    + exists EmptyString, (String x s). split; [reflexivity|].
      simpl. rewrite Nat.add_0_r. now rewrite Here.
    + destruct (IH (S pos) r Found) as (pre & s' & -> & Match).
      exists (String x pre), s'. split; [reflexivity|].
      simpl. now rewrite Nat.add_succ_r.
Qed.

End Search.

(** ** VersionDetector: parsing the output of [uname -r] *)

Section KernelRelease.

Variable text : string.

Lemma regex_search_first_occurrence (i : nat) (v : string) :
  occurs_at text i v ->
  (forall j w, occurs_at text j w -> i <= j) ->
  option_map (fun m => sub m 1) (regex_search linux_regex text) = Some v.
Proof.
  intros (Token & pre & post & Shape & Offset) First.
  assert (Found : search_from linux_regex text 0
                  = Some (mkCaps [(1, i)] [(1, (i, i + String.length v))])).
  { rewrite Shape. apply search_first.
    - intros pre1 s1 Split Before. rewrite exec_linux_regex.
      destruct (version_prefix s1) as [[w post1]|] eqn:Scan; [exfalso | reflexivity].
      apply version_prefix_sound in Scan. destruct Scan as (TokenW & ->).
      assert (Occ : occurs_at text (String.length pre1) w).
      { split; [exact TokenW|]. exists pre1, post1.
        split; [now rewrite Shape, Split | reflexivity]. }
      specialize (First _ _ Occ). lia.
    - rewrite exec_linux_regex, (version_prefix_complete v post Token).
      simpl. now rewrite Offset. }
  unfold regex_search. rewrite Found. simpl. unfold sub. simpl.
  replace (i + String.length v - i) with (String.length v) by lia.
  rewrite Shape, <- Offset. f_equal. apply StrFacts.substring_at.
Qed.

Lemma regex_search_no_occurrence :
  (forall i v, ~ occurs_at text i v) ->
  regex_search linux_regex text = None.
Proof.
  intros Nowhere. unfold regex_search.
  destruct (search_from linux_regex text 0) as [r|] eqn:Found; [exfalso | reflexivity].
  apply search_found in Found. destruct Found as (pre & s' & Split & Match).
  rewrite exec_linux_regex in Match.
  destruct (version_prefix s') as [[w post]|] eqn:Scan; [|discriminate].
  apply version_prefix_sound in Scan. destruct Scan as (Token & ->).
  apply (Nowhere (String.length pre) w).
  split; [exact Token|]. exists pre, post. auto.
Qed.

Variables (h : Host) (s : State).
Hypothesis no_override : env_value s "CONDA_OVERRIDE_LINUX" = EmptyString.
Hypothesis linux : os h = Linux.
Hypothesis uname_ran : prints h ["uname"; "-r"] text.

Lemma linux_version_parses :
  outcome (linux_version h s)
  = Ret match option_map (fun m => sub m 1) (regex_search linux_regex text) with
        | Some v => v
        | None => EmptyString
        end.
Proof.
  destruct uname_ran as (NoError & Out).
  unfold env_value in *. unfold linux_version, on_linux. monad_unfold.
  cbn [environ trace]. rewrite no_override, linux. cbn [Str.empty negb environ].
  rewrite NoError, Out.
  destruct (regex_search linux_regex text) as [m|]; reflexivity.
Qed.

End KernelRelease.

(** C6.  When the output of [uname -r] contains "<int>.<int>.<int>-",
    [linux_version] returns the three-part number of the first place where
    it does, without the hyphen and what follows ("5.15.0-76-generic" gives
    "5.15.0"); when it contains no such substring the result is the empty
    string. *)
Theorem linux_version_of_uname_output (h : Host) (s : State) (text : string) :
  env_value s "CONDA_OVERRIDE_LINUX" = EmptyString ->
  os h = Linux ->
  prints h ["uname"; "-r"] text ->
  (forall i v,
      occurs_at text i v ->
      (forall j w, occurs_at text j w -> i <= j) ->
      outcome (linux_version h s) = Ret v)
  /\ ((forall i v, ~ occurs_at text i v) ->
      outcome (linux_version h s) = Ret EmptyString
      /\ EmptyString <> "0.0.0").
Proof.
  intros NoOverride Lin Ran.
  rewrite (linux_version_parses text h s NoOverride Lin Ran).
  split.
  - intros i v Occ First.
    now rewrite (regex_search_first_occurrence text i v Occ First).
  - intros Nowhere. rewrite (regex_search_no_occurrence text Nowhere).
    split; [reflexivity | discriminate].
Qed.

Lemma linux_version_of_uname_output_witness :
  let text := ("5.15.0-76-generic" ++ newline)%string in
  outcome (linux_version (plain_host Linux text) (fresh no_env)) = Ret "5.15.0".
Proof.
  intros text.
  refine (proj1 (linux_version_of_uname_output (plain_host Linux text)
                   (fresh no_env) text _ _ _) 0 "5.15.0" _ _).
  - reflexivity.
  - reflexivity.
  - split; reflexivity.
  - split.
    + exists "5", "15", "0".
      repeat split; try discriminate; reflexivity.
    + exists EmptyString, ("76-generic" ++ newline)%string. split; reflexivity.
  - intros j w _. lia.
Defined.

(** * Further properties of the file *)

(** ** PathResolver: paths that fit, and the end of the retry loop *)

Lemma overwrite_length (dst src : wstring) :
  List.length src <= List.length dst ->
  List.length (overwrite dst src) = List.length dst.
Proof.
  intros Fits. unfold overwrite. rewrite length_app, length_skipn. lia.
Qed.

Lemma until_null_at (l r : wstring) :
  Forall (fun c => c <> 0%Z) l -> until_null (l ++ 0%Z :: r) = l.
Proof.
  induction 1 as [|c l Hc _ IH]; simpl; [reflexivity|].
  apply Z.eqb_neq in Hc. now rewrite Hc, IH.
Qed.

Lemma find_null_prefix (l r : wstring) (i : Z) :
  Forall (fun c => c <> 0%Z) l ->
  find_null (l ++ 0%Z :: r) i = (i + Z.of_nat (List.length l))%Z.
Proof.
  intros NoNull. revert i.
  induction NoNull as [|c l Hc _ IH]; intros i; simpl.
  - now rewrite Z.add_0_r.
  - apply Z.eqb_neq in Hc. rewrite Hc, IH, Zpos_P_of_succ_nat, <- Z.add_1_l.
    now rewrite Z.add_assoc.
Qed.

Section ShortExePath.

Variables (h : Host) (path : wstring).
Hypothesis exe_at : module_file_name h = Some path.
Hypothesis fits : List.length path < 260.

Lemma GetModuleFileNameW_whole (buffer : wstring) :
  GetModuleFileNameW h buffer (DWORD 260)
  = (overwrite buffer (path ++ [0%Z]), Z.of_nat (List.length path)).
Proof.
  unfold GetModuleFileNameW. rewrite exe_at.
  change (DWORD 260) with 260%Z. change (260 <=? 0)%Z with false. cbv iota.
  replace (Z.of_nat (List.length path) <? 260)%Z with true
    by (symmetry; apply Z.ltb_lt; lia).
  reflexivity.
Qed.

Lemma get_self_exe_path_first_call (fuel : nat) :
  path <> [] ->
  get_self_exe_path h fuel
  = Some match resize (find_null (overwrite (List.repeat 0%Z 260) (path ++ [0%Z])) 0)
                 (mkBuf (overwrite (List.repeat 0%Z 260) (path ++ [0%Z])) MAX_PATH) with
         | Ret buffer => Ret (fs_absolute h (chars buffer))
         | Throw e => Throw e
         | Fault f => Fault f
         end.
Proof.
  intros NonEmpty.
  unfold get_self_exe_path, buffer_size. cbn [chars capacity].
  rewrite repeat_length. change (Z.of_nat (Z.to_nat MAX_PATH)) with 260%Z.
  rewrite GetModuleFileNameW_whole. change (Z.to_nat MAX_PATH) with 260.
  cbn [chars capacity].
  rewrite overwrite_length
    by (rewrite length_app, repeat_length; simpl; lia).
  rewrite repeat_length.
  replace (Z.of_nat (List.length path) =? 0)%Z with false
    by (symmetry; apply Z.eqb_neq; destruct path; [congruence | simpl; lia]).
  replace (Z.of_nat (List.length path) =? Z.of_nat 260)%Z with false
    by (symmetry; apply Z.eqb_neq; lia).
  reflexivity.
Qed.

End ShortExePath.

(** X1.  On Windows, a non-empty executable path of fewer than 260
    characters (and without a null in it) is returned whole, through
    [fs::absolute], after a single call of [GetModuleFileNameW]: the retry
    loop is not entered, whatever the fuel. *)
Theorem get_self_exe_path_fitting (h : Host) (path : wstring) (fuel : nat) :
  module_file_name h = Some path ->
  path <> [] ->
  List.length path < 260 ->
  Forall (fun c => c <> 0%Z) path ->
  get_self_exe_path h fuel = Some (Ret (fs_absolute h path)).
Proof.
  intros At NonEmpty Fits NoNull.
  rewrite (get_self_exe_path_first_call h path At Fits fuel NonEmpty).
  unfold overwrite at 1. rewrite <- app_assoc. simpl app at 2.
  rewrite (find_null_prefix path _ 0 NoNull). unfold resize.
  replace (max_size <? 0 + Z.of_nat (List.length path))%Z with false
    by (symmetry; apply Z.ltb_ge; unfold max_size; lia).
  cbn [chars capacity]. rewrite Z.add_0_l, Nat2Z.id.
  unfold overwrite. rewrite <- app_assoc, firstn_app, firstn_all, Nat.sub_diag.
  simpl firstn. rewrite app_nil_r.
  replace (List.length path - _) with 0.
  - simpl. now rewrite app_nil_r.
  - rewrite !length_app, length_skipn, repeat_length. simpl. lia.
Qed.

Lemma get_self_exe_path_fitting_witness :
  get_self_exe_path short_path_host 0 = Some (Ret short_exe_path).
Proof.
  change (get_self_exe_path short_path_host 0
          = Some (Ret (fs_absolute short_path_host short_exe_path))).
  apply get_self_exe_path_fitting.
  - reflexivity.
  - discriminate.
  - simpl. lia.
  - repeat constructor; lia.
Defined.

Lemma get_self_exe_path_no_module (h : Host) (fuel : nat) :
  module_file_name h = None \/ module_file_name h = Some [] ->
  get_self_exe_path h fuel
  = Some (Throw (runtime_error "Could find location of the micromamba executable!")).
Proof.
  intros Failure. unfold get_self_exe_path, GetModuleFileNameW.
  destruct Failure as [-> | ->]; reflexivity.
Qed.

Lemma get_self_exe_path_after_retry (h : Host) (path : wstring) (fuel : nat) :
  module_file_name h = Some path ->
  260 <= List.length path ->
  get_self_exe_path h (S fuel)
  = Some match resize (find_null (firstn 259 path ++ [0%Z]) 0)
                 (mkBuf (firstn 259 path ++ [0%Z]) 520) with
         | Ret buffer => Ret (fs_absolute h (chars buffer))
         | Throw e => Throw e
         | Fault f => Fault f
         end.
Proof.
  intros At Long.
  unfold get_self_exe_path, buffer_size. cbn [chars capacity].
  rewrite repeat_length. change (Z.of_nat (Z.to_nat MAX_PATH)) with 260%Z.
  rewrite (GetModuleFileNameW_truncates h path At Long (List.repeat 0%Z (Z.to_nat MAX_PATH)))
    by apply repeat_length.
  change (260 =? 0)%Z with false. cbn [chars capacity].
  rewrite (cut_length path Long). change (260 =? Z.of_nat 260)%Z with true. cbv iota.
  rewrite (grow_one_round h path At Long). reflexivity.
Qed.

(** X2.  The retry loop of the Windows variant never goes round twice:
    on every host one round of fuel is enough for [get_self_exe_path] to
    come back, and more fuel gives the same answer. *)
Theorem get_self_exe_path_one_round (h : Host) (fuel : nat) :
  get_self_exe_path h 1 <> None
  /\ get_self_exe_path h (S fuel) = get_self_exe_path h 1.
Proof.
  destruct (module_file_name h) as [path|] eqn:At.
  - destruct (le_lt_dec 260 (List.length path)) as [Long | Fits].
    + rewrite !(get_self_exe_path_after_retry h path _ At Long).
      split; [discriminate | reflexivity].
    + destruct path as [|c path].
      * rewrite !get_self_exe_path_no_module by auto.
        split; [discriminate | reflexivity].
      * rewrite !(get_self_exe_path_first_call h _ At Fits) by discriminate.
        split; [discriminate | reflexivity].
  - rewrite !get_self_exe_path_no_module by auto.
    split; [discriminate | reflexivity].
Qed.

(** ** PathResolver: the macOS variant *)

Section ApplePath.

Variables (PATH_MAX : Z) (absolute : cstring -> cstring) (exe : cstring).
Hypothesis PATH_MAX_range : (0 < PATH_MAX < 2 ^ 32)%Z.

Lemma UINT32_PATH_MAX : UINT32 PATH_MAX = PATH_MAX.
Proof. unfold UINT32. apply Z.mod_small. lia. Qed.

Lemma apple_fitting :
  (Z.of_nat (List.length exe) < PATH_MAX)%Z ->
  Forall (fun c => c <> 0%Z) exe ->
  get_self_exe_path_apple PATH_MAX absolute exe = Ret (absolute exe).
Proof.
  intros Fits NoNull.
  unfold get_self_exe_path_apple, NSGetExecutablePath. rewrite UINT32_PATH_MAX.
  replace (Z.of_nat (List.length exe) + 1 <=? PATH_MAX)%Z with true
    by (symmetry; apply Z.leb_le; lia).
  change (0 =? -1)%Z with false. cbv iota.
  unfold overwrite. rewrite <- app_assoc. simpl app.
  now rewrite (until_null_at exe _ NoNull).
Qed.

Lemma apple_too_long :
  (PATH_MAX <= Z.of_nat (List.length exe))%Z ->
  (Z.of_nat (List.length exe) + 1 < 2 ^ 32)%Z ->
  get_self_exe_path_apple PATH_MAX absolute exe
  = Throw (runtime_error "Couldn't find location the micromamba executable!").
Proof.
  intros Long Range.
  unfold get_self_exe_path_apple, NSGetExecutablePath. rewrite UINT32_PATH_MAX.
  replace (Z.of_nat (List.length exe) + 1 <=? PATH_MAX)%Z with false
    by (symmetry; apply Z.leb_gt; lia).
  change (-1 =? -1)%Z with true. cbv iota.
  replace (UINT32 (Z.of_nat (List.length exe) + 1))
    with (Z.of_nat (List.length exe) + 1)%Z
    by (symmetry; apply Z.mod_small; lia).
  rewrite Z.leb_refl. reflexivity.
Qed.

End ApplePath.

(** X3.  The macOS variant returns the executable path when it fits in
    [PATH_MAX] bytes with its terminating null.  When it does not, the
    second call of [_NSGetExecutablePath], made with the size the first
    one asked for, succeeds and returns [0]; the code tests [!0] and
    throws: a path of [PATH_MAX] bytes or more is never returned. *)
Theorem get_self_exe_path_apple_contract (PATH_MAX : Z)
  (absolute : cstring -> cstring) (exe : cstring) :
  (0 < PATH_MAX < 2 ^ 32)%Z ->
  (Z.of_nat (List.length exe) + 1 < 2 ^ 32)%Z ->
  Forall (fun c => c <> 0%Z) exe ->
  ((Z.of_nat (List.length exe) < PATH_MAX)%Z ->
   get_self_exe_path_apple PATH_MAX absolute exe = Ret (absolute exe))
  /\ ((PATH_MAX <= Z.of_nat (List.length exe))%Z ->
      get_self_exe_path_apple PATH_MAX absolute exe
      = Throw (runtime_error "Couldn't find location the micromamba executable!")).
Proof.
  intros Range Small NoNull. split.
  - intros Fits. now apply apple_fitting.
  - intros Long. now apply apple_too_long.
Qed.

Lemma get_self_exe_path_apple_contract_witness :
  get_self_exe_path_apple 4 (fun p => p) [47; 97]%Z = Ret [47; 97]%Z
  /\ get_self_exe_path_apple 4 (fun p => p) [47; 97; 47; 98; 99]%Z
     = Throw (runtime_error "Couldn't find location the micromamba executable!").
Proof.
  split.
  - apply (proj1 (get_self_exe_path_apple_contract 4 (fun p => p) [47; 97]%Z
                    ltac:(lia) ltac:(simpl; lia) ltac:(repeat constructor; lia))).
    simpl. lia.
  - apply (proj2 (get_self_exe_path_apple_contract 4 (fun p => p) [47; 97; 47; 98; 99]%Z
                    ltac:(lia) ltac:(simpl; lia) ltac:(repeat constructor; lia))).
    simpl. lia.
Defined.

(** ** ProcessInspector *)

Lemma scan_snapshot_first (pid ppid : Z) (pre post : list PROCESSENTRY32)
  (e : PROCESSENTRY32) :
  Forall (fun x => th32ProcessID x <> pid) pre ->
  th32ProcessID e = pid ->
  scan_snapshot pid ppid (pre ++ e :: post) = th32ParentProcessID e.
Proof.
  intros Before Here. induction Before as [|x pre Hx _ IH]; simpl.
  - apply Z.eqb_eq in Here. now rewrite Here.
  - apply Z.eqb_neq in Hx. now rewrite Hx.
Qed.

Lemma scan_snapshot_absent (pid ppid : Z) (entries : list PROCESSENTRY32) :
  Forall (fun x => th32ProcessID x <> pid) entries ->
  scan_snapshot pid ppid entries = ppid.
Proof.
  induction 1 as [|x l Hx _ IH]; simpl; [reflexivity|].
  apply Z.eqb_neq in Hx. now rewrite Hx.
Qed.

(** X4.  [getppid] returns the parent recorded in the first entry of the
    snapshot that carries the id of the current process, whatever comes
    after it; it returns [0] when no entry carries that id and when the
    snapshot could not be taken; and it closes the snapshot handle exactly
    when there is one. *)
Theorem getppid_contract (pid : Z) (s : State) :
  (forall pre e post,
      Forall (fun x => th32ProcessID x <> pid) pre ->
      th32ProcessID e = pid ->
      outcome (getppid (Some (pre ++ e :: post)) pid s)
      = Ret (th32ParentProcessID e))
  /\ (forall entries,
         Forall (fun x => th32ProcessID x <> pid) entries ->
         outcome (getppid (Some entries) pid s) = Ret 0%Z)
  /\ (forall entries,
         emitted s (getppid (Some entries) pid s) = [CloseHandle])
  /\ getppid None pid s = (Ret 0%Z, s).
Proof.
  split; [|split; [|split]].
  - intros pre e post Before Here. unfold getppid. monad_unfold. simpl.
    now rewrite (scan_snapshot_first pid 0 pre post e Before Here).
  - intros entries Absent. unfold getppid. monad_unfold. simpl.
    now rewrite (scan_snapshot_absent pid 0 entries Absent).
  - intros entries. unfold getppid. monad_unfold. trace_normalize. reflexivity.
  - reflexivity.
Qed.

Lemma getppid_contract_witness :
  outcome (getppid (Some sample_snapshot) 4312 (fresh no_env)) = Ret 812%Z
  /\ outcome (getppid (Some sample_snapshot) 77 (fresh no_env)) = Ret 0%Z.
Proof.
  destruct (getppid_contract 4312 (fresh no_env)) as (Found & _).
  destruct (getppid_contract 77 (fresh no_env)) as (_ & Absent & _).
  split.
  - apply (Found [mkEntry 4 0; mkEntry 812 4] (mkEntry 4312 812) []).
    + repeat constructor; simpl; lia.
    + reflexivity.
  - apply Absent. repeat constructor; simpl; lia.
Defined.

Lemma getline_first_line (line rest : string) :
  Str.forallb (fun c => negb (Ascii.eqb c "010")) line = true ->
  getline (line ++ newline ++ rest) = line.
Proof.
  intros NoNewline. unfold getline.
  induction line as [|c line IH]; simpl in *; [reflexivity|].
  apply andb_true_iff in NoNewline. destruct NoNewline as [Hc Hrest].
  now rewrite Hc, (IH Hrest).
Qed.

(** X5.  On Linux [get_process_name_by_pid] opens [/proc/<pid>/status]
    and returns its first line without the newline, as it stands: for the
    status file the kernel writes, that is the whole record "Name:", a
    tab and the name, not the bare name.  When the file cannot be opened
    the result is the empty string. *)
Theorem get_process_name_by_pid_first_line (read_file : string -> option string)
  (pid : Z) :
  (forall name rest,
      Str.forallb (fun c => negb (Ascii.eqb c "010")) name = true ->
      read_file ("/proc/" ++ to_string pid ++ "/status")%string
      = Some ("Name:" ++ tab ++ name ++ newline ++ rest)%string ->
      get_process_name_by_pid read_file pid = ("Name:" ++ tab ++ name)%string)
  /\ (read_file ("/proc/" ++ to_string pid ++ "/status")%string = None ->
      get_process_name_by_pid read_file pid = EmptyString).
Proof.
  assert (Path : concat ["/proc/"; to_string pid; "/status"]
                 = ("/proc/" ++ to_string pid ++ "/status")%string)
    by reflexivity.
  unfold get_process_name_by_pid. rewrite Path. split.
  - intros name rest NoNewline ->.
    change ("Name:" ++ tab ++ name ++ newline ++ rest)%string
      with ("Name:" ++ tab ++ (name ++ newline ++ rest))%string.
    replace ("Name:" ++ tab ++ (name ++ newline ++ rest))%string
      with (("Name:" ++ tab ++ name) ++ newline ++ rest)%string
      by reflexivity.
    apply getline_first_line. simpl. exact NoNewline.
  - intros ->. reflexivity.
Qed.

Lemma get_process_name_by_pid_first_line_witness :
  get_process_name_by_pid sample_proc 4312 = ("Name:" ++ tab ++ "micromamba")%string
  /\ get_process_name_by_pid sample_proc 1 = EmptyString.
Proof.
  split.
  - apply (proj1 (get_process_name_by_pid_first_line sample_proc 4312)
             "micromamba" ("Umask:" ++ tab ++ "0022" ++ newline)%string);
      reflexivity.
  - apply (proj2 (get_process_name_by_pid_first_line sample_proc 1)).
    reflexivity.
Defined.

(** ** ConsoleEncodingManager: the locale of a POSIX console *)

Section Locale.

Variable h : Host.

Lemma try_locales_found (candidates : list string) (l : string) (s : State) :
  find (setlocale_ok h) candidates = Some l ->
  outcome (try_locales h candidates s) = Ret tt
  /\ (forall name, environ (final (try_locales h candidates s)) name
                   = if String.eqb name "LC_ALL" then Some l else environ s name)
  /\ exists refused,
      trace (final (try_locales h candidates s))
      = trace s ++ map Setlocale refused ++ [Setlocale l; Setenv "LC_ALL" l]
      /\ forallb (fun c => negb (setlocale_ok h c)) refused = true.
Proof.
  revert s. induction candidates as [|c rest IH]; intros s Found; [discriminate|].
  simpl in Found. cbn [try_locales]. monad_unfold.
  destruct (setlocale_ok h c) eqn:Ok.
  - injection Found as <-. simpl. split; [reflexivity|]. split; [reflexivity|].
    exists []. split; [|reflexivity]. simpl. now rewrite <- app_assoc.
  - cbn [fst snd].
    match goal with
    | |- context [try_locales h rest ?s'] =>
        destruct (IH s' Found) as (R & E & refused & T & F)
    end.
    unfold outcome, final in *. simpl in E, T.
    split; [exact R|]. split; [exact E|].
    exists (c :: refused). split.
    + rewrite T. simpl. now rewrite <- app_assoc.
    + simpl. now rewrite Ok, F.
Qed.

Lemma try_locales_none (candidates : list string) (s : State) :
  find (setlocale_ok h) candidates = None ->
  outcome (try_locales h candidates s) = Ret tt
  /\ (forall name, environ (final (try_locales h candidates s)) name = environ s name)
  /\ trace (final (try_locales h candidates s))
     = trace s ++ map Setlocale candidates.
Proof.
  revert s. induction candidates as [|c rest IH]; intros s NotFound.
  - simpl. rewrite app_nil_r. auto.
  - simpl in NotFound. cbn [try_locales]. monad_unfold.
    destruct (setlocale_ok h c) eqn:Ok; [discriminate|]. cbn [fst snd].
    match goal with
    | |- context [try_locales h rest ?s'] =>
        destruct (IH s' NotFound) as (R & E & T)
    end.
    unfold outcome, final in *. simpl in E, T.
    split; [exact R|]. split; [exact E|].
    rewrite T. simpl. now rewrite <- app_assoc.
Qed.

End Locale.

(** X6.  Away from Windows [init_console] tries "C.UTF-8", "POSIX.UTF-8"
    and "en_US.UTF-8" in that order, stops at the first one [setlocale]
    accepts and exports exactly that one as [LC_ALL], leaving every other
    variable alone; when none is accepted it has tried all three and the
    environment is what it was.  It raises nothing in either case. *)
Theorem init_console_posix_locale (h : Host) (s : State) :
  os h <> Windows ->
  let r := init_console h s in
  outcome r = Ret tt
  /\ (forall l,
         find (setlocale_ok h) utf8_locales = Some l ->
         (forall name, environ (final r) name
                       = if String.eqb name "LC_ALL" then Some l else environ s name)
         /\ exists refused,
             emitted s r = map Setlocale refused ++ [Setlocale l; Setenv "LC_ALL" l]
             /\ forallb (fun c => negb (setlocale_ok h c)) refused = true)
  /\ (find (setlocale_ok h) utf8_locales = None ->
      (forall name, environ (final r) name = environ s name)
      /\ emitted s r = map Setlocale utf8_locales).
Proof.
  intros Posix r.
  assert (Run : r = try_locales h utf8_locales s).
  { subst r. unfold init_console. destruct (os h); congruence. }
  rewrite Run. clear Run r.
  destruct (find (setlocale_ok h) utf8_locales) as [l|] eqn:Found.
  - destruct (try_locales_found h utf8_locales l s Found) as (R & E & refused & T & F).
    split; [exact R|]. split; [|discriminate].
    intros l' [= <-]. split; [exact E|]. exists refused.
    split; [|exact F]. now apply emitted_app.
  - destruct (try_locales_none h utf8_locales s Found) as (R & E & T).
    split; [exact R|]. split; [discriminate|].
    intros _. split; [exact E|]. now apply emitted_app.
Qed.

Lemma init_console_posix_locale_witness :
  let r := init_console en_US_host (fresh no_env) in
  environ (final r) "LC_ALL" = Some "en_US.UTF-8"
  /\ emitted (fresh no_env) r
     = [Setlocale "C.UTF-8"; Setlocale "POSIX.UTF-8"; Setlocale "en_US.UTF-8";
        Setenv "LC_ALL" "en_US.UTF-8"].
Proof.
  intros r.
  destruct (init_console_posix_locale en_US_host (fresh no_env)) as (_ & Found & _).
  - discriminate.
  - destruct (Found "en_US.UTF-8" eq_refl) as (E & _).
    split; [exact (E "LC_ALL") | reflexivity].
Defined.

(** ** Wide strings to UTF-8: the conversion that succeeds *)

Lemma repeat_length_str (c : ascii) (n : nat) : String.length (Str.repeat c n) = n.
Proof. induction n as [|n IH]; simpl; [reflexivity | now rewrite IH]. Qed.

Lemma substring_none (n : nat) (s : string) : String.substring n 0 s = EmptyString.
Proof.
  revert s. induction n as [|n IH]; intros [|c s]; simpl; auto.
Qed.

Lemma append_empty (s : string) : (s ++ EmptyString)%string = s.
Proof. induction s as [|c s IH]; simpl; [reflexivity | now rewrite IH]. Qed.

Lemma overwrite_filled (c : ascii) (bytes : string) :
  Str.overwrite (Str.repeat c (String.length bytes)) bytes = bytes.
Proof.
  unfold Str.overwrite.
  rewrite repeat_length_str, Nat.sub_diag, substring_none. apply append_empty.
Qed.

(** X7.  When the size query of the conversion facility answers with a
    positive [size] and the conversion proper then writes that many bytes,
    [to_utf8] returns exactly these bytes; the facility is called twice,
    first with an output size of [0], then with [size]. *)
Theorem to_utf8_converts (h : Host) (w : wstring) (s : State) (bytes : string) :
  w <> [] ->
  (Z.of_nat (List.length w) <= INT_MAX)%Z ->
  bytes <> EmptyString ->
  fst (wc_to_mb h w 0) = Z.of_nat (String.length bytes) ->
  wc_to_mb h w (Z.of_nat (String.length bytes))
  = (Z.of_nat (String.length bytes), bytes) ->
  outcome (to_utf8 h w s) = Ret bytes
  /\ emitted s (to_utf8 h w s)
     = [WideCharToMultiByte (Z.of_nat (List.length w)) 0;
        WideCharToMultiByte (Z.of_nat (List.length w))
          (Z.of_nat (String.length bytes))].
Proof.
  intros NE Bound NonEmpty Size Written. unfold to_utf8, call_WideCharToMultiByte.
  destruct (Z.of_nat (List.length w) =? 0)%Z eqn:Z0.
  { apply Z.eqb_eq in Z0. destruct w; [congruence | simpl in Z0; lia]. }
  apply Z.leb_le in Bound.
  monad_unfold. simpl negb. cbv iota. rewrite Bound. cbn [fst snd].
  rewrite Size.
  replace (Z.of_nat (String.length bytes) <=? 0)%Z with false
    by (symmetry; apply Z.leb_gt; destruct bytes; [congruence | simpl; lia]).
  rewrite Written. cbn [fst snd]. rewrite Z.eqb_refl, Nat2Z.id, overwrite_filled.
  split; [reflexivity|]. trace_normalize. reflexivity.
Qed.

Lemma to_utf8_converts_witness :
  outcome (to_utf8 converting_host [8364%Z] (fresh no_env)) = Ret euro.
Proof.
  apply (to_utf8_converts converting_host [8364%Z] (fresh no_env) euro).
  - discriminate.
  - vm_compute. discriminate.
  - discriminate.
  - reflexivity.
  - reflexivity.
Defined.

(** X8.  [to_utf8(w)] converts the characters in front of the first null
    and nothing behind it: it is [to_utf8(w, s)] on that prefix. *)
Theorem to_utf8_cstr_stops_at_null (h : Host) (text rest : wstring) (s : State) :
  Forall (fun c => c <> 0%Z) text ->
  to_utf8_cstr h (text ++ 0%Z :: rest) s = to_utf8 h text s.
Proof.
  intros NoNull. unfold to_utf8_cstr. now rewrite (until_null_at text rest NoNull).
Qed.

Lemma to_utf8_cstr_stops_at_null_witness :
  to_utf8_cstr converting_host [8364; 0; 65]%Z (fresh no_env)
  = to_utf8 converting_host [8364%Z] (fresh no_env).
Proof.
  apply (to_utf8_cstr_stops_at_null converting_host [8364%Z] [65%Z]).
  repeat constructor. lia.
Defined.

(** ** ConsoleEncodingManager: two calls of [init_console] *)

(** X9.  A second [init_console] overwrites what the first one saved: after
    two calls on Windows the saved codepages are UTF-8 itself, and
    [reset_console] leaves the console in UTF-8 instead of giving back the
    codepages the process started with. *)
Theorem init_console_twice_forgets (h : Host) (s : State) :
  os h = Windows ->
  let twice := final (init_console h (final (init_console h s))) in
  init_console_cp twice = CP_UTF8
  /\ init_console_output_cp twice = CP_UTF8
  /\ console_cp (final (reset_console h twice)) = CP_UTF8
  /\ console_output_cp (final (reset_console h twice)) = CP_UTF8.
Proof.
  intros W twice.
  destruct (init_captures h s W) as (_ & _ & _ & U1 & U2).
  destruct (init_captures h (final (init_console h s)) W) as (I & C & O & _ & _).
  fold twice in I, C, O.
  destruct (reset_initialized h twice W I) as (R1 & R2).
  rewrite R1, R2, C, O, U1, U2. auto.
Qed.

Lemma init_console_twice_forgets_witness :
  let h := plain_host Windows EmptyString in
  console_cp
    (final (reset_console h
              (final (init_console h (final (init_console h (fresh no_env)))))))
  = 65001%Z.
Proof.
  intros h.
  apply (init_console_twice_forgets h (fresh no_env) eq_refl).
Defined.

(** ** VersionDetector: the other family, and a version command that fails *)

Lemma os_family_eq_dec (a b : os_family) : {a = b} + {a <> b}.
Proof. decide equality. Defined.

Section NoOverride.

Variables (h : Host) (s : State).

Lemma windows_elsewhere :
  env_value s "CONDA_OVERRIDE_WIN" = EmptyString -> os h <> Windows ->
  windows_version h s
  = (Ret EmptyString, snd (log LDebug "Loading Windows virtual package" s)).
Proof.
  intros E O. unfold env_value in E. unfold windows_version, on_win. monad_unfold.
  cbn [environ trace]. rewrite E. cbn [Str.empty negb].
  destruct (os h); try reflexivity. congruence.
Qed.

Lemma macos_elsewhere :
  env_value s "CONDA_OVERRIDE_OSX" = EmptyString -> os h <> MacOS ->
  macos_version h s
  = (Ret EmptyString, snd (log LDebug "Loading macos virtual package" s)).
Proof.
  intros E O. unfold env_value in E. unfold macos_version, on_mac. monad_unfold.
  cbn [environ trace]. rewrite E. cbn [Str.empty negb].
  destruct (os h); try reflexivity. congruence.
Qed.

Lemma linux_elsewhere :
  env_value s "CONDA_OVERRIDE_LINUX" = EmptyString -> os h <> Linux ->
  linux_version h s
  = (Ret EmptyString, snd (log LDebug "Loading linux virtual package" s)).
Proof.
  intros E O. unfold env_value in E. unfold linux_version, on_linux. monad_unfold.
  cbn [environ trace]. rewrite E. cbn [Str.empty negb].
  destruct (os h); try reflexivity. congruence.
Qed.

Lemma windows_run_fails (message : string) :
  env_value s "CONDA_OVERRIDE_WIN" = EmptyString -> os h = Windows ->
  ec (reproc_run h [env_value s "COMSPEC"; "/c"; "ver"]) = Some message ->
  outcome (windows_version h s) = Ret EmptyString
  /\ emitted s (windows_version h s)
     = [Log LDebug "Loading Windows virtual package";
        Run [env_value s "COMSPEC"; "/c"; "ver"];
        Log LWarning ("Could not find Windows version by calling 'ver'" ++ newline
                      ++ "Please file a bug report." ++ newline
                      ++ "Error: " ++ message)].
Proof.
  intros E O Failed. unfold env_value in *. unfold windows_version, on_win. monad_unfold.
  cbn [environ trace]. rewrite E, O. cbn [Str.empty negb environ].
  rewrite Failed. split; [reflexivity|]. trace_normalize. reflexivity.
Qed.

Lemma macos_run_fails (message : string) :
  env_value s "CONDA_OVERRIDE_OSX" = EmptyString -> os h = MacOS ->
  ec (reproc_run h ["sw_vers"; "-productVersion"]) = Some message ->
  outcome (macos_version h s) = Ret EmptyString
  /\ emitted s (macos_version h s)
     = [Log LDebug "Loading macos virtual package";
        Run ["sw_vers"; "-productVersion"];
        Log LWarning
          ("Could not find macOS version by calling 'sw_vers -productVersion'"
           ++ newline ++ "Please file a bug report." ++ newline
           ++ "Error: " ++ message)].
Proof.
  intros E O Failed. unfold env_value in *. unfold macos_version, on_mac. monad_unfold.
  cbn [environ trace]. rewrite E, O. cbn [Str.empty negb environ].
  rewrite Failed. split; [reflexivity|]. trace_normalize. reflexivity.
Qed.

Lemma linux_run_fails (message : string) :
  env_value s "CONDA_OVERRIDE_LINUX" = EmptyString -> os h = Linux ->
  ec (reproc_run h ["uname"; "-r"]) = Some message ->
  outcome (linux_version h s) = Ret EmptyString
  /\ emitted s (linux_version h s)
     = [Log LDebug "Loading linux virtual package";
        Run ["uname"; "-r"];
        Log LDebug "Could not find linux version by calling 'uname -r' (skipped)"].
Proof.
  intros E O Failed. unfold env_value in *. unfold linux_version, on_linux. monad_unfold.
  cbn [environ trace]. rewrite E, O. cbn [Str.empty negb environ].
  rewrite Failed. split; [reflexivity|]. trace_normalize. reflexivity.
Qed.

End NoOverride.

(** X10.  Without an override, each version function asked on a host of
    another family returns the empty string at once: all it does is to log
    its debug line, and no command is run. *)
Theorem version_of_another_family (h : Host) (s : State) :
  (env_value s "CONDA_OVERRIDE_WIN" = EmptyString -> os h <> Windows ->
   outcome (windows_version h s) = Ret EmptyString
   /\ emitted s (windows_version h s)
      = [Log LDebug "Loading Windows virtual package"])
  /\ (env_value s "CONDA_OVERRIDE_OSX" = EmptyString -> os h <> MacOS ->
      outcome (macos_version h s) = Ret EmptyString
      /\ emitted s (macos_version h s)
         = [Log LDebug "Loading macos virtual package"])
  /\ (env_value s "CONDA_OVERRIDE_LINUX" = EmptyString -> os h <> Linux ->
      outcome (linux_version h s) = Ret EmptyString
      /\ emitted s (linux_version h s)
         = [Log LDebug "Loading linux virtual package"]).
Proof.
  split; [|split]; intros E O.
  - rewrite (windows_elsewhere h s E O). split; [reflexivity|].
    apply emitted_app. reflexivity.
  - rewrite (macos_elsewhere h s E O). split; [reflexivity|].
    apply emitted_app. reflexivity.
  - rewrite (linux_elsewhere h s E O). split; [reflexivity|].
    apply emitted_app. reflexivity.
Qed.

Lemma version_of_another_family_witness :
  let h := plain_host Linux "5.15.0-76-generic" in
  outcome (windows_version h (fresh no_env)) = Ret EmptyString
  /\ outcome (macos_version h (fresh no_env)) = Ret EmptyString.
Proof.
  intros h.
  destruct (version_of_another_family h (fresh no_env)) as (W & O & _).
  split.
  - apply W; [reflexivity | discriminate].
  - apply O; [reflexivity | discriminate].
Defined.

(** X11.  When the version command cannot be run (the error code of
    [reproc::run] is set), each version function returns the empty string
    after the command and one more log line; that line is a warning with
    the error message on Windows and macOS, and a debug note without it on
    Linux. *)
Theorem version_command_fails (h : Host) (s : State) (message : string) :
  (env_value s "CONDA_OVERRIDE_WIN" = EmptyString -> os h = Windows ->
   ec (reproc_run h [env_value s "COMSPEC"; "/c"; "ver"]) = Some message ->
   outcome (windows_version h s) = Ret EmptyString
   /\ emitted s (windows_version h s)
      = [Log LDebug "Loading Windows virtual package";
         Run [env_value s "COMSPEC"; "/c"; "ver"];
         Log LWarning ("Could not find Windows version by calling 'ver'" ++ newline
                       ++ "Please file a bug report." ++ newline
                       ++ "Error: " ++ message)])
  /\ (env_value s "CONDA_OVERRIDE_OSX" = EmptyString -> os h = MacOS ->
      ec (reproc_run h ["sw_vers"; "-productVersion"]) = Some message ->
      outcome (macos_version h s) = Ret EmptyString
      /\ emitted s (macos_version h s)
         = [Log LDebug "Loading macos virtual package";
            Run ["sw_vers"; "-productVersion"];
            Log LWarning
              ("Could not find macOS version by calling 'sw_vers -productVersion'"
               ++ newline ++ "Please file a bug report." ++ newline
               ++ "Error: " ++ message)])
  /\ (env_value s "CONDA_OVERRIDE_LINUX" = EmptyString -> os h = Linux ->
      ec (reproc_run h ["uname"; "-r"]) = Some message ->
      outcome (linux_version h s) = Ret EmptyString
      /\ emitted s (linux_version h s)
         = [Log LDebug "Loading linux virtual package";
            Run ["uname"; "-r"];
            Log LDebug "Could not find linux version by calling 'uname -r' (skipped)"]).
Proof.
  split; [|split].
  - apply windows_run_fails.
  - apply macos_run_fails.
  - apply linux_run_fails.
Qed.

Lemma version_command_fails_witness :
  outcome (linux_version (broken_run_host Linux) (fresh no_env)) = Ret EmptyString
  /\ emitted (fresh no_env) (linux_version (broken_run_host Linux) (fresh no_env))
     = [Log LDebug "Loading linux virtual package";
        Run ["uname"; "-r"];
        Log LDebug "Could not find linux version by calling 'uname -r' (skipped)"].
Proof.
  apply (proj2 (proj2 (version_command_fails (broken_run_host Linux) (fresh no_env)
                         "No such file or directory"))); reflexivity.
Defined.

(** ** VersionDetector: what [strip] leaves of the output of [sw_vers] *)

Module StripFacts.

Lemma rev_onto_app (s acc : string) :
  Str.rev_onto s acc = (Str.rev s ++ acc)%string.
Proof.
  unfold Str.rev. revert acc. induction s as [|c s IH]; intros acc; simpl.
  - reflexivity.
  - rewrite IH, (IH (String c EmptyString)), StrFacts.append_assoc. reflexivity.
Qed.

Lemma rev_cons (c : ascii) (s : string) :
  Str.rev (String c s) = (Str.rev s ++ String c EmptyString)%string.
Proof. unfold Str.rev at 1. simpl. apply rev_onto_app. Qed.

Lemma rev_app (a b : string) :
  Str.rev (a ++ b) = (Str.rev b ++ Str.rev a)%string.
Proof.
  induction a as [|c a IH]; simpl.
  - now rewrite append_empty.
  - now rewrite !rev_cons, IH, StrFacts.append_assoc.
Qed.

Lemma rev_involutive (s : string) : Str.rev (Str.rev s) = s.
Proof.
  induction s as [|c s IH]; [reflexivity|].
  now rewrite rev_cons, rev_app, IH.
Qed.

Lemma forallb_app (p : ascii -> bool) (a b : string) :
  Str.forallb p (a ++ b) = Str.forallb p a && Str.forallb p b.
Proof.
  induction a as [|c a IH]; simpl; [reflexivity|].
  now rewrite IH, andb_assoc.
Qed.

Lemma forallb_rev (p : ascii -> bool) (s : string) :
  Str.forallb p (Str.rev s) = Str.forallb p s.
Proof.
  induction s as [|c s IH]; [reflexivity|].
  rewrite rev_cons, forallb_app, IH. simpl. rewrite andb_true_r. apply andb_comm.
Qed.

Lemma drop_while_through (p : ascii -> bool) (a b : string) :
  Str.forallb p a = true -> Str.drop_while p (a ++ b) = Str.drop_while p b.
Proof.
  induction a as [|c a IH]; simpl; [reflexivity|].
  intros All. apply andb_true_iff in All. destruct All as [-> All]. auto.
Qed.

Lemma drop_while_all (p : ascii -> bool) (a : string) :
  Str.forallb p a = true -> Str.drop_while p a = EmptyString.
Proof.
  intros All. rewrite <- (append_empty a), drop_while_through by exact All.
  reflexivity.
Qed.

Lemma last_char (s : string) :
  s <> EmptyString -> exists front c, s = (front ++ String c EmptyString)%string.
Proof.
  induction s as [|c s IH]; [congruence|]. intros _.
  destruct s as [|d s].
  - exists EmptyString, c. reflexivity.
  - destruct IH as (front & e & ->); [discriminate|].
    exists (String c front), e. reflexivity.
Qed.

(** [strip] removes the white space around a text that neither starts nor
    ends with white space. *)
Lemma strip_around (lead core trail : string) :
  Str.forallb Chars.isspace lead = true ->
  Str.forallb Chars.isspace trail = true ->
  (forall c rest, core = String c rest -> Chars.isspace c = false) ->
  (forall front c, core = (front ++ String c EmptyString)%string ->
                   Chars.isspace c = false) ->
  strip (lead ++ core ++ trail) = core.
Proof.
  intros Lead Trail First Last. unfold strip.
  rewrite (drop_while_through _ lead _ Lead).
  destruct core as [|c rest].
  - simpl. rewrite (drop_while_all _ trail Trail). reflexivity.
  - simpl append. simpl Str.drop_while. rewrite (First c rest eq_refl).
    change (String c (rest ++ trail)) with (String c rest ++ trail)%string.
    rewrite rev_app, drop_while_through by (now rewrite forallb_rev).
    destruct (last_char (String c rest)) as (front & d & Shape); [discriminate|].
    rewrite Shape, rev_app. simpl Str.rev at 1.
    change (Str.rev (String d EmptyString)) with (String d EmptyString).
    simpl append. simpl Str.drop_while. rewrite (Last front d Shape).
    change (String d (Str.rev front))
      with (Str.rev (String d EmptyString) ++ Str.rev front)%string.
    now rewrite <- rev_app, rev_involutive.
Qed.

End StripFacts.

(** X12.  [macos_version] returns the output of [sw_vers -productVersion]
    without the white space around it and otherwise untouched, inner white
    space included; "13.4" and a newline give "13.4". *)
Theorem macos_version_strips (h : Host) (s : State) (lead core trail : string) :
  env_value s "CONDA_OVERRIDE_OSX" = EmptyString ->
  os h = MacOS ->
  prints h ["sw_vers"; "-productVersion"] (lead ++ core ++ trail) ->
  Str.forallb Chars.isspace lead = true ->
  Str.forallb Chars.isspace trail = true ->
  (forall c rest, core = String c rest -> Chars.isspace c = false) ->
  (forall front c, core = (front ++ String c EmptyString)%string ->
                   Chars.isspace c = false) ->
  outcome (macos_version h s) = Ret core.
Proof.
  intros E O (NoError & Out) Lead Trail First Last.
  unfold env_value in E. unfold macos_version, on_mac. monad_unfold.
  cbn [environ trace]. rewrite E, O. cbn [Str.empty negb environ].
  rewrite NoError, Out. cbn [fst].
  now rewrite (StripFacts.strip_around lead core trail Lead Trail First Last).
Qed.

Lemma macos_version_strips_witness :
  outcome (macos_version (plain_host MacOS ("13.4" ++ newline)) (fresh no_env))
  = Ret "13.4".
Proof.
  apply (macos_version_strips (plain_host MacOS ("13.4" ++ newline)%string)
           (fresh no_env) EmptyString "13.4" newline).
  - reflexivity.
  - reflexivity.
  - split; reflexivity.
  - reflexivity.
  - reflexivity.
  - intros c rest [= <- _]. reflexivity.
  - intros front c Shape. apply (f_equal Str.rev) in Shape.
    rewrite StripFacts.rev_app in Shape. injection Shape as <- _. reflexivity.
Defined.

(** ** VersionDetector: the shape of what [linux_version] returns *)

Lemma regex_search_token (text : string) (m : smatch) :
  regex_search linux_regex text = Some m ->
  exists i, occurs_at text i (sub m 1).
Proof.
  unfold regex_search.
  destruct (search_from linux_regex text 0) as [r|] eqn:Found; [|discriminate].
  intros [= <-].
  apply search_found in Found. destruct Found as (pre & s' & Split & Match).
  rewrite exec_linux_regex in Match.
  destruct (version_prefix s') as [[w post]|] eqn:Scan; [|discriminate].
  injection Match as <-.
  apply version_prefix_sound in Scan. destruct Scan as (Token & ->).
  exists (String.length pre). unfold sub. simpl.
  replace (String.length pre + String.length w - String.length pre)
    with (String.length w) by lia.
  rewrite Split, StrFacts.substring_at.
  split; [exact Token|]. exists pre, post. auto.
Qed.

(** X13.  Without an override [linux_version] never raises, and what it
    returns is either the empty string or a token "<int>.<int>.<int>" that
    stands in the output of [uname -r] in front of a hyphen: nothing else
    can come out of it, on any host. *)
Theorem linux_version_shape (h : Host) (s : State) :
  env_value s "CONDA_OVERRIDE_LINUX" = EmptyString ->
  exists v,
    outcome (linux_version h s) = Ret v
    /\ (v = EmptyString
        \/ exists i, occurs_at (out (reproc_run h ["uname"; "-r"])) i v).
Proof.
  intros E.
  destruct (os_family_eq_dec (os h) Linux) as [Lin | Other].
  - destruct (ec (reproc_run h ["uname"; "-r"])) as [message|] eqn:Error.
    + exists EmptyString. split; [|auto].
      apply (linux_run_fails h s message E Lin Error).
    + rewrite (linux_version_parses (out (reproc_run h ["uname"; "-r"])) h s E Lin)
        by (split; [exact Error | reflexivity]).
      destruct (regex_search linux_regex (out (reproc_run h ["uname"; "-r"])))
        as [m|] eqn:Search; simpl.
      * exists (sub m 1). split; [reflexivity|]. right.
        now apply regex_search_token.
      * exists EmptyString. auto.
  - exists EmptyString. split; [|auto].
    now rewrite (linux_elsewhere h s E Other).
Qed.

Lemma linux_version_shape_witness :
  exists v,
    outcome (linux_version (plain_host Linux "6.8.0-45-generic") (fresh no_env)) = Ret v
    /\ (v = EmptyString \/ exists i, occurs_at "6.8.0-45-generic" i v).
Proof.
  apply (linux_version_shape (plain_host Linux "6.8.0-45-generic") (fresh no_env)).
  reflexivity.
Defined.

(** ** PrivilegeManager: past the version gate *)

Lemma enable_long_paths_support_stages (h : Host) (force : bool) :
  enable_long_paths_support h force
  = (win_ver <- windows_version h ;;
     supported <- version_supported (split win_ver ".") ;;
     if negb supported
     then log LWarning version_warning ;; ret false
     else registry_stage h force).
Proof. reflexivity. Qed.

Lemma version_supported_pure (splitted : list string) (s : State) :
  snd (version_supported splitted s) = s.
Proof.
  unfold version_supported. monad_unfold.
  destruct (3 <=? List.length splitted)%nat; [|reflexivity].
  destruct (nth_error splitted 0) as [e0|]; [|reflexivity].
  destruct (stoull e0) as [major| |]; try reflexivity. cbv beta iota.
  destruct (10 <=? major)%Z; [|reflexivity].
  destruct (nth_error splitted 2) as [e2|]; [|reflexivity].
  destruct (stoull e2) as [build| |]; reflexivity.
Qed.

Lemma version_supported_true (ver : string) (s : State) :
  meets_requirement ver ->
  version_supported (components ver) s = (Ret true, s).
Proof.
  intros (major & build & V0 & Major & V2 & Build).
  apply component_value_inv in V0, V2.
  destruct V0 as (e0 & C0 & P0), V2 as (e2 & C2 & P2).
  unfold version_supported.
  assert (Long : (3 <=? List.length (components ver))%nat = true).
  { apply Nat.leb_le.
    assert (2 < List.length (components ver))
      by (apply nth_error_Some; rewrite C2; discriminate).
    lia. }
  rewrite Long. monad_unfold. rewrite C0, P0. cbv beta iota.
  apply Z.leb_le in Major, Build. rewrite Major, C2, P2. cbv beta iota.
  now rewrite Build.
Qed.

Lemma past_the_gate (h : Host) (force : bool) (s s1 : State) (ver : string) :
  windows_version h s = (Ret ver, s1) ->
  meets_requirement ver ->
  enable_long_paths_support h force s = registry_stage h force s1.
Proof.
  intros Version Meets. rewrite enable_long_paths_support_stages.
  rewrite (bind_ret _ _ _ _ _ Version). fold (components ver).
  rewrite (bind_ret _ _ _ _ _ (version_supported_true ver s1 Meets)).
  reflexivity.
Qed.

Ltac stage_unfold :=
  unfold registry_stage, RegKey_Open, GetDwordValue, SetDwordValue, is_admin,
    run_as_admin;
  monad_unfold;
  cbn [LongPathsEnabled trace environ set_LongPathsEnabled fst snd].

Ltac stage_reduce :=
  cbn [LongPathsEnabled trace environ console_cp console_output_cp
       init_console_cp init_console_output_cp init_console_initialized
       set_LongPathsEnabled fst snd negb].

Ltac stage_done :=
  stage_reduce; repeat split; repeat rewrite <- app_assoc; reflexivity.

Section RegistryStage.

Variables (h : Host) (force : bool) (s : State).

Lemma stage_unreadable :
  reg_readable h = false ->
  let r := registry_stage h force s in
  outcome r = Throw (RegException "RegOpenKeyEx failed.")
  /\ trace (final r) = trace s ++ [RegOpenKey false]
  /\ LongPathsEnabled (final r) = LongPathsEnabled s.
Proof.
  intros Closed. stage_unfold. rewrite Closed. stage_done.
Qed.

Hypothesis readable : reg_readable h = true.



Variable v : Z.
Hypothesis value : LongPathsEnabled s = Some v.
Hypothesis off : DWORD v <> 1%Z.

Ltac stage_start :=
  stage_unfold; rewrite readable; cbn [LongPathsEnabled fst snd];
  rewrite value; cbn [fst snd];
  replace (DWORD v =? 1)%Z with false by (symmetry; apply Z.eqb_neq; exact off);
  cbn [fst snd].

Ltac stage_direct :=
  match goal with
  | D : force = true \/ (os h = Windows /\ IsUserAnAdmin h = true) |- _ =>
      destruct D as [-> | [-> ->]]; [|destruct force]
  end.

Lemma stage_direct_write :
  force = true \/ (os h = Windows /\ IsUserAnAdmin h = true) ->
  reg_writable h = true ->
  let r := registry_stage h force s in
  outcome r = Ret true
  /\ trace (final r)
     = trace s ++ [RegOpenKey false; RegGetValue "LongPathsEnabled";
                   RegOpenKey true; RegSetValue "LongPathsEnabled" 1;
                   RegGetValue "LongPathsEnabled";
                   Stdout "Windows long-path support enabled."]
  /\ LongPathsEnabled (final r) = Some 1%Z.
Proof.
  intros Direct Writable r. subst r. stage_start.
  stage_direct; stage_reduce; rewrite Writable; stage_reduce;
    change (DWORD 1 =? 1)%Z with true; stage_done.
Qed.

Lemma stage_write_refused :
  force = true \/ (os h = Windows /\ IsUserAnAdmin h = true) ->
  reg_writable h = false ->
  let r := registry_stage h force s in
  outcome r = Throw (RegException "RegOpenKeyEx failed.")
  /\ trace (final r)
     = trace s ++ [RegOpenKey false; RegGetValue "LongPathsEnabled";
                   RegOpenKey true]
  /\ LongPathsEnabled (final r) = Some v.
Proof.
  intros Direct Writable r. subst r. stage_start.
  stage_direct; stage_reduce; rewrite Writable; stage_done.
Qed.

Hypothesis not_forced : force = false.
Hypothesis windows : os h = Windows.
Hypothesis not_admin : IsUserAnAdmin h = false.

Ltac stage_ask :=
  stage_start; rewrite not_forced, windows, not_admin; stage_reduce.


Lemma stage_not_launched :
  confirm h elevation_question "n" = true ->
  ShellExecuteEx h "runas" "reg.exe" reg_add_arguments = None ->
  let r := registry_stage h force s in
  outcome r = Ret false
  /\ trace (final r)
     = trace s ++ [RegOpenKey false; RegGetValue "LongPathsEnabled";
                   Prompt elevation_question "n";
                   ShellExecute "runas" "reg.exe" reg_add_arguments;
                   Log LWarning "Could not start process as admin."]
  /\ LongPathsEnabled (final r) = Some v.
Proof.
  intros Yes Launch r. subst r. unfold elevation_question in *. stage_ask.
  rewrite Yes, Launch. stage_done.
Qed.

Lemma stage_child_failed (hProcess : HANDLE) :
  confirm h elevation_question "n" = true ->
  ShellExecuteEx h "runas" "reg.exe" reg_add_arguments = Some hProcess ->
  read_exit_code hProcess 0 <> 0%Z ->
  let r := registry_stage h force s in
  outcome r = Ret false
  /\ trace (final r)
     = trace s ++ [RegOpenKey false; RegGetValue "LongPathsEnabled";
                   Prompt elevation_question "n";
                   ShellExecute "runas" "reg.exe" reg_add_arguments;
                   WaitForSingleObject INFINITE; GetExitCodeProcess; CloseHandle;
                   Log LWarning "Process exited with code != 0."]
  /\ LongPathsEnabled (final r) = registry_after_wait hProcess (Some v).
Proof.
  intros Yes Launch Code r. subst r. unfold elevation_question in *. stage_ask.
  rewrite Yes, Launch. stage_reduce.
  replace (read_exit_code hProcess 0 =? 0)%Z with false
    by (symmetry; now apply Z.eqb_neq).
  stage_done.
Qed.

Lemma stage_child_done (hProcess : HANDLE) (after : Z) :
  confirm h elevation_question "n" = true ->
  ShellExecuteEx h "runas" "reg.exe" reg_add_arguments = Some hProcess ->
  read_exit_code hProcess 0 = 0%Z ->
  registry_after_wait hProcess (Some v) = Some after ->
  let r := registry_stage h force s in
  outcome r = Ret (DWORD after =? 1)%Z
  /\ trace (final r)
     = trace s ++ [RegOpenKey false; RegGetValue "LongPathsEnabled";
                   Prompt elevation_question "n";
                   ShellExecute "runas" "reg.exe" reg_add_arguments;
                   WaitForSingleObject INFINITE; GetExitCodeProcess; CloseHandle;
                   RegGetValue "LongPathsEnabled";
                   if (DWORD after =? 1)%Z
                   then Stdout "Windows long-path support enabled."
                   else Log LWarning "Changing registry value did not succeed."]
  /\ LongPathsEnabled (final r) = Some after.
Proof.
  intros Yes Launch Code After r. subst r. unfold elevation_question in *. stage_ask.
  rewrite Yes, Launch. stage_reduce. rewrite Code, After.
  change (0 =? 0)%Z with true. stage_reduce.
  destruct (DWORD after =? 1)%Z; stage_done.
Qed.

Lemma stage_child_removed (hProcess : HANDLE) :
  confirm h elevation_question "n" = true ->
  ShellExecuteEx h "runas" "reg.exe" reg_add_arguments = Some hProcess ->
  read_exit_code hProcess 0 = 0%Z ->
  registry_after_wait hProcess (Some v) = None ->
  let r := registry_stage h force s in
  (exists what, outcome r = Throw (RegException what))
  /\ trace (final r)
     = trace s ++ [RegOpenKey false; RegGetValue "LongPathsEnabled";
                   Prompt elevation_question "n";
                   ShellExecute "runas" "reg.exe" reg_add_arguments;
                   WaitForSingleObject INFINITE; GetExitCodeProcess; CloseHandle;
                   RegGetValue "LongPathsEnabled"]
  /\ LongPathsEnabled (final r) = None.
Proof.
  intros Yes Launch Code After r. subst r. unfold elevation_question in *. stage_ask.
  rewrite Yes, Launch. stage_reduce. rewrite Code, After.
  change (0 =? 0)%Z with true. stage_reduce.
  split; [eexists; reflexivity|]. stage_done.
Qed.

End RegistryStage.

Lemma registry_after_version (h : Host) (s s1 : State) (ver : string) :
  windows_version h s = (Ret ver, s1) -> LongPathsEnabled s1 = LongPathsEnabled s.
Proof.
  intros Version. destruct (windows_version_frame h s) as (_ & _ & L).
  now rewrite Version in L.
Qed.

Section PastTheGate.

Variables (h : Host) (force : bool) (s s1 : State) (ver : string).
Hypothesis version : windows_version h s = (Ret ver, s1).
Hypothesis meets : meets_requirement ver.

Lemma registry_at_stage : LongPathsEnabled s1 = LongPathsEnabled s.
Proof. exact (registry_after_version h s s1 ver version). Qed.

Lemma at_stage : enable_long_paths_support h force s = registry_stage h force s1.
Proof. exact (past_the_gate h force s s1 ver version meets). Qed.



(** X16.  Only the first read of the value sits in the [try] block.  When
    the key cannot be opened for reading, and when it cannot be opened for
    the direct write (a forced call without the rights, say), the
    [RegException] of WinReg leaves [enable_long_paths_support]: no
    boolean is returned, and the value is what it was. *)
Theorem long_paths_registry_exception_escapes (v : Z) :
  let r := enable_long_paths_support h force s in
  (reg_readable h = false ->
   outcome r = Throw (RegException "RegOpenKeyEx failed.")
   /\ LongPathsEnabled (final r) = LongPathsEnabled s)
  /\ (reg_readable h = true -> reg_writable h = false ->
      LongPathsEnabled s = Some v -> DWORD v <> 1%Z ->
      force = true \/ (os h = Windows /\ IsUserAnAdmin h = true) ->
      outcome r = Throw (RegException "RegOpenKeyEx failed.")
      /\ trace (final r)
         = trace s1 ++ [RegOpenKey false; RegGetValue "LongPathsEnabled";
                        RegOpenKey true]
      /\ LongPathsEnabled (final r) = Some v).
Proof.
  intros r. subst r. rewrite at_stage. split.
  - intros Closed.
    destruct (stage_unreadable h force s1 Closed) as (R & _ & L).
    split; [exact R|]. now rewrite <- registry_at_stage.
  - intros Readable Refused Value Off Direct.
    apply stage_write_refused; auto. now rewrite registry_at_stage.
Qed.

(** X17.  With [force], or for a caller who is an administrator already,
    and when the key can be opened both for reading and for writing, a
    value other than [1] is overwritten with [1] by the process itself,
    without a question and without a child process; the value is read
    back and [true] is returned.  (A key that cannot be opened for writing
    is X16.) *)
Theorem long_paths_direct_write (v : Z) :
  reg_readable h = true -> reg_writable h = true ->
  LongPathsEnabled s = Some v -> DWORD v <> 1%Z ->
  force = true \/ (os h = Windows /\ IsUserAnAdmin h = true) ->
  let r := enable_long_paths_support h force s in
  outcome r = Ret true
  /\ trace (final r)
     = trace s1 ++ [RegOpenKey false; RegGetValue "LongPathsEnabled";
                    RegOpenKey true; RegSetValue "LongPathsEnabled" 1;
                    RegGetValue "LongPathsEnabled";
                    Stdout "Windows long-path support enabled."]
  /\ LongPathsEnabled (final r) = Some 1%Z.
Proof.
  intros Readable Writable Value Off Direct. rewrite at_stage.
  apply (stage_direct_write h force s1 Readable v); auto.
  now rewrite registry_at_stage.
Qed.

Hypothesis readable : reg_readable h = true.
Hypothesis not_forced : force = false.
Hypothesis windows : os h = Windows.
Hypothesis not_admin : IsUserAnAdmin h = false.


(** X19.  When the user agrees, [reg.exe ADD ... /v LongPathsEnabled /d 1
    /t REG_DWORD /f] is started with the "runas" verb and waited for.  A
    launch that fails and an exit code other than [0] give [false].  After
    an exit code of [0] (also the [0] that stands for an exit code that
    was not read) the value is read again, outside the [try] block: the
    result is [true] when the value is [1] now, [false] with a warning
    when it is another number, and the [RegException] of the read leaves
    the function when the value does not exist any more.  The exit code
    alone is not trusted. *)
Theorem long_paths_elevated (v : Z) :
  LongPathsEnabled s = Some v -> DWORD v <> 1%Z ->
  confirm h elevation_question "n" = true ->
  let r := enable_long_paths_support h force s in
  (ShellExecuteEx h "runas" "reg.exe" reg_add_arguments = None ->
   outcome r = Ret false /\ LongPathsEnabled (final r) = Some v)
  /\ (forall hProcess,
         ShellExecuteEx h "runas" "reg.exe" reg_add_arguments = Some hProcess ->
         read_exit_code hProcess 0 <> 0%Z ->
         outcome r = Ret false
         /\ LongPathsEnabled (final r) = registry_after_wait hProcess (Some v))
  /\ (forall hProcess after,
         ShellExecuteEx h "runas" "reg.exe" reg_add_arguments = Some hProcess ->
         read_exit_code hProcess 0 = 0%Z ->
         registry_after_wait hProcess (Some v) = Some after ->
         outcome r = Ret (DWORD after =? 1)%Z
         /\ trace (final r)
            = trace s1 ++ [RegOpenKey false; RegGetValue "LongPathsEnabled";
                           Prompt elevation_question "n";
                           ShellExecute "runas" "reg.exe" reg_add_arguments;
                           WaitForSingleObject INFINITE; GetExitCodeProcess;
                           CloseHandle;
                           RegGetValue "LongPathsEnabled";
                           if (DWORD after =? 1)%Z
                           then Stdout "Windows long-path support enabled."
                           else Log LWarning "Changing registry value did not succeed."]
         /\ LongPathsEnabled (final r) = Some after)
  /\ (forall hProcess,
         ShellExecuteEx h "runas" "reg.exe" reg_add_arguments = Some hProcess ->
         read_exit_code hProcess 0 = 0%Z ->
         registry_after_wait hProcess (Some v) = None ->
         (exists what, outcome r = Throw (RegException what))
         /\ trace (final r)
            = trace s1 ++ [RegOpenKey false; RegGetValue "LongPathsEnabled";
                           Prompt elevation_question "n";
                           ShellExecute "runas" "reg.exe" reg_add_arguments;
                           WaitForSingleObject INFINITE; GetExitCodeProcess;
                           CloseHandle;
                           RegGetValue "LongPathsEnabled"]
         /\ LongPathsEnabled (final r) = None).
Proof.
  intros Value Off Yes r. subst r. rewrite at_stage.
  rewrite <- registry_at_stage in Value.
  split; [|split; [|split]].
  - intros Launch.
    destruct (stage_not_launched h force s1 readable v Value Off not_forced
                windows not_admin Yes Launch) as (R & _ & L).
    auto.
  - intros hProcess Launch Code.
    destruct (stage_child_failed h force s1 readable v Value Off not_forced
                windows not_admin hProcess Yes Launch Code) as (R & _ & L).
    auto.
  - intros hProcess after Launch Code After.
    exact (stage_child_done h force s1 readable v Value Off not_forced
             windows not_admin hProcess after Yes Launch Code After).
  - intros hProcess Launch Code After.
    exact (stage_child_removed h force s1 readable v Value Off not_forced
             windows not_admin hProcess Yes Launch Code After).
Qed.

End PastTheGate.

Lemma windows10_meets : meets_requirement "10.0.19041".
Proof.
  exists 10%Z, 19041%Z. repeat split; try reflexivity; lia.
Defined.



Lemma long_paths_registry_exception_escapes_witness :
  outcome (enable_long_paths_support declining_host true (windows10_start (Some 0%Z)))
  = Throw (RegException "RegOpenKeyEx failed.").
Proof.
  apply (proj2 (long_paths_registry_exception_escapes declining_host true
                  (windows10_start (Some 0%Z)) (windows10_detected (Some 0%Z))
                  "10.0.19041" eq_refl windows10_meets 0%Z)).
  - reflexivity.
  - reflexivity.
  - reflexivity.
  - vm_compute. discriminate.
  - left. reflexivity.
Defined.

Lemma long_paths_direct_write_witness :
  let r := enable_long_paths_support admin_host false (windows10_start (Some 0%Z)) in
  outcome r = Ret true /\ LongPathsEnabled (final r) = Some 1%Z.
Proof.
  intros r.
  destruct (long_paths_direct_write admin_host false (windows10_start (Some 0%Z))
              (windows10_detected (Some 0%Z)) "10.0.19041" eq_refl windows10_meets 0%Z)
    as (R & _ & L).
  - reflexivity.
  - reflexivity.
  - reflexivity.
  - vm_compute. discriminate.
  - right. split; reflexivity.
  - split; [exact R | exact L].
Defined.


Lemma long_paths_elevated_witness :
  (let r := enable_long_paths_support (elevating_host 0) false
              (windows10_start (Some 0%Z)) in
   outcome r = Ret true /\ LongPathsEnabled (final r) = Some 1%Z)
  /\ (let r := enable_long_paths_support removing_host false
                 (windows10_start (Some 0%Z)) in
      (exists what, outcome r = Throw (RegException what))
      /\ LongPathsEnabled (final r) = None).
Proof.
  split; intros r.
  - destruct (long_paths_elevated (elevating_host 0) false (windows10_start (Some 0%Z))
                (windows10_detected (Some 0%Z)) "10.0.19041" eq_refl windows10_meets
                eq_refl eq_refl eq_refl eq_refl 0%Z)
      as (_ & _ & Done & _).
    + reflexivity.
    + vm_compute. discriminate.
    + reflexivity.
    + destruct (Done (Some (mkProcess 0 (fun v => if (0 =? 0)%Z then Some 1%Z else v)
                              true)) 1%Z eq_refl eq_refl eq_refl) as (R & _ & L).
      split; [exact R | exact L].
  - destruct (long_paths_elevated removing_host false (windows10_start (Some 0%Z))
                (windows10_detected (Some 0%Z)) "10.0.19041" eq_refl windows10_meets
                eq_refl eq_refl eq_refl eq_refl 0%Z)
      as (_ & _ & _ & Removed).
    + reflexivity.
    + vm_compute. discriminate.
    + reflexivity.
    + destruct (Removed (Some (mkProcess 0 (fun _ => None) true))
                  eq_refl eq_refl eq_refl) as (R & _ & L).
      split; [exact R | exact L].
Defined.

(** ** PrivilegeManager: what holds on every path *)

Ltac innermost_case :=
  match goal with
  | |- context [match ?x with _ => _ end] =>
      lazymatch x with
      | context [match _ with _ => _ end] => fail
      | _ => destruct x eqn:?
      end
  end; stage_reduce.

Lemma stage_true_enabled (h : Host) (force : bool) (s : State) :
  outcome (registry_stage h force s) = Ret true ->
  exists v, LongPathsEnabled (final (registry_stage h force s)) = Some v
            /\ DWORD v = 1%Z.
Proof.
  stage_unfold. repeat innermost_case; intros Result; try discriminate Result.
  all: eexists; split; [reflexivity|]; try reflexivity; apply Z.eqb_eq; assumption.
Qed.

Lemma bind_fault {A B : Type} (m : M A) (k : A -> M B) (s s1 : State) (f : fault) :
  m s = (Fault f, s1) -> bind m k s = (Fault f, s1).
Proof. unfold bind. intros ->. reflexivity. Qed.

(** X20.  Whatever the host, the state and [force]: when
    [enable_long_paths_support] returns [true], the [LongPathsEnabled]
    value is [1] in the registry it leaves behind. *)
Theorem long_paths_true_means_enabled (h : Host) (force : bool) (s : State) :
  outcome (enable_long_paths_support h force s) = Ret true ->
  exists v,
    LongPathsEnabled (final (enable_long_paths_support h force s)) = Some v
    /\ DWORD v = 1%Z.
Proof.
  rewrite enable_long_paths_support_stages.
  destruct (windows_version h s) as [[ver|e|f] s1] eqn:Version;
    [rewrite (bind_ret _ _ _ _ _ Version)
    | rewrite (bind_throw _ _ _ _ _ Version); discriminate
    | rewrite (bind_fault _ _ _ _ _ Version); discriminate].
  destruct (version_supported (split ver ".") s1) as [[[|]|e|f] s2] eqn:Supported;
    [rewrite (bind_ret _ _ _ _ _ Supported)
    | rewrite (bind_ret _ _ _ _ _ Supported); discriminate
    | rewrite (bind_throw _ _ _ _ _ Supported); discriminate
    | rewrite (bind_fault _ _ _ _ _ Supported); discriminate].
  cbn [negb]. apply stage_true_enabled.
Qed.

Lemma long_paths_true_means_enabled_witness :
  exists v,
    LongPathsEnabled
      (final (enable_long_paths_support (elevating_host 0) false
                (windows10_start (Some 0%Z)))) = Some v
    /\ DWORD v = 1%Z.
Proof.
  apply (long_paths_true_means_enabled (elevating_host 0) false
           (windows10_start (Some 0%Z))).
  reflexivity.
Defined.

Lemma stage_writes (h : Host) (force : bool) (s : State) :
  exists evs,
    trace (final (registry_stage h force s)) = trace s ++ evs
    /\ forall n x, In (RegSetValue n x) evs ->
                   (force = true \/ outcome (is_admin h s) = Ret true)
                   /\ n = "LongPathsEnabled" /\ x = 1%Z.
Proof.
  stage_unfold. repeat innermost_case.
  all: eexists; split;
    [repeat rewrite <- app_assoc; reflexivity|].
  all: intros n x Written; simpl in Written;
    repeat match goal with
           | H : _ \/ _ |- _ => destruct H
           | H : False |- _ => destruct H
           | H : _ = RegSetValue _ _ |- _ =>
               first [discriminate H | injection H as <- <-]
           end; auto.
Qed.

Lemma no_write_among (evs : list event) (n : string) (x : Z) :
  forallb (fun e => negb (is_registry_event e)) evs = true ->
  ~ In (RegSetValue n x) evs.
Proof.
  intros Free Written.
  apply (proj1 (forallb_forall _ _) Free) in Written. discriminate Written.
Qed.

(** X21.  [enable_long_paths_support] writes the registry itself only when
    [force] is set or the caller is an administrator, and then only the
    number [1] under the name [LongPathsEnabled]: in every other case any
    change is left to the elevated child. *)
Theorem long_paths_writes_only_when_entitled (h : Host) (force : bool) (s : State)
  (n : string) (x : Z) :
  In (RegSetValue n x) (emitted s (enable_long_paths_support h force s)) ->
  (force = true \/ outcome (is_admin h s) = Ret true)
  /\ n = "LongPathsEnabled" /\ x = 1%Z.
Proof.
  rewrite enable_long_paths_support_stages.
  destruct (windows_version_registry_free h s) as (evs1 & T1 & Free & _).
  destruct (windows_version h s) as [[ver|e|f] s1] eqn:Version;
    unfold final in T1; simpl in T1;
    [rewrite (bind_ret _ _ _ _ _ Version)
    | rewrite (bind_throw _ _ _ _ _ Version),
        (emitted_app s (Throw e, s1) evs1 T1);
      intros Written; now apply no_write_among in Written
    | rewrite (bind_fault _ _ _ _ _ Version),
        (emitted_app s (Fault f, s1) evs1 T1);
      intros Written; now apply no_write_among in Written].
  pose proof (version_supported_pure (split ver ".") s1) as Pure.
  destruct (version_supported (split ver ".") s1) as [[[|]|e|f] s2] eqn:Supported;
    simpl in Pure; subst s2.
  - rewrite (bind_ret _ _ _ _ _ Supported). cbn [negb].
    destruct (stage_writes h force s1) as (evs2 & T2 & Entitled).
    rewrite (emitted_app s _ (evs1 ++ evs2))
      by (rewrite T2, T1; symmetry; apply app_assoc).
    intros Written. apply in_app_or in Written. destruct Written as [W | W].
    + now apply no_write_among in W.
    + exact (Entitled n x W).
  - rewrite (bind_ret _ _ _ _ _ Supported). cbn [negb].
    rewrite (emitted_app s _ (evs1 ++ [Log LWarning version_warning]))
      by (unfold final; simpl; rewrite T1; symmetry; apply app_assoc).
    intros Written. apply in_app_or in Written. destruct Written as [W | W].
    + now apply no_write_among in W.
    + simpl in W. destruct W as [W | []]. discriminate W.
  - rewrite (bind_throw _ _ _ _ _ Supported), (emitted_app s (Throw e, s1) evs1 T1).
    intros Written. now apply no_write_among in Written.
  - rewrite (bind_fault _ _ _ _ _ Supported), (emitted_app s (Fault f, s1) evs1 T1).
    intros Written. now apply no_write_among in Written.
Qed.

Lemma long_paths_writes_only_when_entitled_witness :
  In (RegSetValue "LongPathsEnabled" 1)
    (emitted (windows10_start (Some 0%Z))
       (enable_long_paths_support admin_host true (windows10_start (Some 0%Z))))
  /\ (true = true
      \/ outcome (is_admin admin_host (windows10_start (Some 0%Z))) = Ret true).
Proof.
  assert (Written : In (RegSetValue "LongPathsEnabled" 1)
                      (emitted (windows10_start (Some 0%Z))
                         (enable_long_paths_support admin_host true
                            (windows10_start (Some 0%Z)))))
    by (vm_compute; auto 10).
  split; [exact Written|].
  apply (long_paths_writes_only_when_entitled admin_host true
           (windows10_start (Some 0%Z)) "LongPathsEnabled" 1%Z Written).
Defined.

(** ** The version gate behind a version that could not be found *)

Lemma gate_closed_after (h : Host) (force : bool) (s s1 : State) (ver : string) :
  windows_version h s = (Ret ver, s1) ->
  List.length (components ver) < 3
  \/ (exists major, component_value ver 0 = Some major
                    /\ ((major < 10)%Z
                        \/ exists build, component_value ver 2 = Some build
                                         /\ (build < 14352)%Z)) ->
  enable_long_paths_support h force s
  = (Ret false, snd (log LWarning version_warning s1)).
Proof.
  intros Version Below. rewrite enable_long_paths_support_stages.
  rewrite (bind_ret _ _ _ _ _ Version). fold (components ver).
  rewrite (bind_ret _ _ _ _ _ (version_supported_false ver s1 Below)).
  reflexivity.
Qed.

(** X22.  When the version of the host cannot be found (the output of
    [ver] does not match the pattern, so that the version is the sentinel
    "0.0.0", or the command cannot be run, so that it is empty),
    [enable_long_paths_support] takes the host for too old: it returns
    [false] after the warning and leaves the registry alone, also with
    [force]. *)
Theorem long_paths_refused_without_version (h : Host) (force : bool) (s : State)
  (banner : string) :
  env_value s "CONDA_OVERRIDE_WIN" = EmptyString ->
  os h = Windows ->
  (prints h [env_value s "COMSPEC"; "/c"; "ver"] banner
   /\ regex_match ver_output_regex (strip banner) = None)
  \/ (exists message,
         ec (reproc_run h [env_value s "COMSPEC"; "/c"; "ver"]) = Some message) ->
  let r := enable_long_paths_support h force s in
  outcome r = Ret false
  /\ forallb (fun e => negb (is_registry_event e)) (emitted s r) = true
  /\ LongPathsEnabled (final r) = LongPathsEnabled s
  /\ exists evs, trace (final r) = trace s ++ evs ++ [Log LWarning version_warning].
Proof.
  intros NoOverride Win Unknown r.
  assert (Version : exists ver s1,
             windows_version h s = (Ret ver, s1)
             /\ (ver = "0.0.0" \/ ver = EmptyString)).
  { destruct (windows_version h s) as [res s1] eqn:Run.
    destruct Unknown as [(Ran & NoMatch) | (message & Failed)].
    - pose proof (windows_version_parses h s banner NoOverride Win Ran) as Parsed.
      rewrite Run, NoMatch in Parsed. simpl in Parsed. subst res. eauto.
    - destruct (windows_run_fails h s message NoOverride Win Failed) as (Parsed & _).
      rewrite Run in Parsed. simpl in Parsed. subst res. eauto. }
  destruct Version as (ver & s1 & Version & Sentinel).
  assert (Below : List.length (components ver) < 3
                  \/ (exists major, component_value ver 0 = Some major
                                    /\ ((major < 10)%Z
                                        \/ exists build,
                                            component_value ver 2 = Some build
                                            /\ (build < 14352)%Z))).
  { destruct Sentinel as [-> | ->].
    - right. exists 0%Z. split; [reflexivity | left; lia].
    - left. simpl. lia. }
  destruct (windows_version_registry_free h s) as (evs & T & Free & L).
  rewrite Version in T, L. unfold final in T, L. simpl in T, L.
  subst r. rewrite (gate_closed_after h force s s1 ver Version Below).
  unfold outcome, final. simpl.
  split; [reflexivity|]. split; [|split; [exact L|]].
  - erewrite emitted_app.
    2:{ unfold final. simpl. rewrite T, <- app_assoc. reflexivity. }
    rewrite forallb_app, Free. reflexivity.
  - exists evs. now rewrite T, <- app_assoc.
Qed.

Lemma long_paths_refused_without_version_witness :
  outcome (enable_long_paths_support (plain_host Windows "FreeDOS 1.3") true
             (fresh no_env))
  = Ret false.
Proof.
  apply (long_paths_refused_without_version (plain_host Windows "FreeDOS 1.3") true
           (fresh no_env) "FreeDOS 1.3").
  - reflexivity.
  - reflexivity.
  - left. split; [split; reflexivity | reflexivity].
Defined.

(** ** VersionDetector: the shape of what [windows_version] returns *)

Section MatcherSoundness.

(** What a repetition passes on is a suffix of the text. *)
Lemma greedy_sound (cs : cset) (k : cont) (s : string) :
  forall pos m m',
    greedy cs k s pos m = Some m' ->
    exists s1 s2, s = (s1 ++ s2)%string
                  /\ Str.forallb (mem cs) s1 = true
                  /\ k s2 (pos + String.length s1) m = Some m'.
Proof.
  induction s as [|c s IH]; intros pos m m' Match; simpl in Match.
  - exists EmptyString, EmptyString. simpl. now rewrite Nat.add_0_r.
  - destruct (mem cs c) eqn:In.
    + destruct (greedy cs k s (S pos) m) as [r|] eqn:Longer.
      * injection Match as <-.
        destruct (IH _ _ _ Longer) as (s1 & s2 & -> & All & Rest).
        exists (String c s1), s2. simpl. rewrite In, All, Nat.add_succ_r. auto.
      * exists EmptyString, (String c s). simpl. now rewrite Nat.add_0_r.
    + exists EmptyString, (String c s). simpl. now rewrite Nat.add_0_r.
Qed.

(** A match of a pattern ends with a match of any of its tails, on a
    suffix of the text. *)
Lemma exec_tail (full : bool) (front back : regex) :
  forall s pos m m',
    exec full (front ++ back) s pos m = Some m' ->
    exists s1 s2 m2, s = (s1 ++ s2)%string
                     /\ exec full back s2 (pos + String.length s1) m2 = Some m'.
Proof.
  induction front as [|node front IH]; intros s pos m m' Match.
  - exists EmptyString, s, m. simpl. now rewrite Nat.add_0_r.
  - destruct node as [cs|cs|cs|n|n]; simpl in Match.
    + destruct s as [|c s]; [discriminate|].
      destruct (mem cs c); [|discriminate].
      destruct (IH _ _ _ _ Match) as (s1 & s2 & m2 & -> & Rest).
      exists (String c s1), s2, m2. simpl. now rewrite Nat.add_succ_r.
    + apply greedy_sound in Match. destruct Match as (a & b & -> & _ & Match).
      destruct (IH _ _ _ _ Match) as (s1 & s2 & m2 & -> & Rest).
      exists (a ++ s1)%string, s2, m2.
      rewrite StrFacts.append_assoc, StrFacts.length_append, Nat.add_assoc. auto.
    + destruct s as [|c s]; [discriminate|].
      destruct (mem cs c); [|discriminate].
      apply greedy_sound in Match. destruct Match as (a & b & -> & _ & Match).
      destruct (IH _ _ _ _ Match) as (s1 & s2 & m2 & -> & Rest).
      exists (String c (a ++ s1)), s2, m2. simpl.
      rewrite StrFacts.append_assoc, StrFacts.length_append.
      rewrite <- Nat.add_succ_comm, Nat.add_assoc. auto.
    + destruct (IH _ _ _ _ Match) as (s1 & s2 & m2 & -> & Rest). eauto.
    + destruct (IH _ _ _ _ Match) as (s1 & s2 & m2 & -> & Rest). eauto.
Qed.

(** The end of the [ver] pattern: group 3 and the closing bracket. *)
Lemma exec_build_token (s : string) (pos : nat) (m m' : caps) :
  exec true [Open 3; Plus (Union digit (Lit ".")); Close 3; Atom (Lit "]")] s pos m
  = Some m' ->
  exists g, s = (g ++ "]")%string
            /\ g <> EmptyString
            /\ Str.forallb version_char g = true
            /\ assoc 3 (closed m') = Some (pos, pos + String.length g).
Proof.
  simpl. destruct s as [|c s]; [discriminate|].
  change (Chars.in_range "0" "9" c || Ascii.eqb c ".") with (version_char c).
  destruct (version_char c) eqn:First; [|discriminate].
  intros Match. apply greedy_sound in Match.
  destruct Match as (a & b & -> & All & Match).
  destruct b as [|d b]; [discriminate|].
  destruct (Ascii.eqb_spec d "]") as [->|]; [|discriminate].
  destruct b; [|discriminate]. injection Match as <-.
  exists (String c a). simpl. rewrite First.
  repeat split; try discriminate.
  - exact All.
  - unfold close_group, open_group. simpl. now rewrite Nat.add_succ_r.
Qed.

(** Group 3 of a match of the [ver] pattern is a non-empty run of digits
    and dots. *)
Lemma ver_output_build_token (x : string) (rmatch : smatch) :
  regex_match ver_output_regex x = Some rmatch ->
  sub rmatch 3 <> EmptyString /\ Str.forallb version_char (sub rmatch 3) = true.
Proof.
  unfold regex_match.
  destruct (exec true ver_output_regex x 0 no_caps) as [m'|] eqn:Match; [|discriminate].
  intros [= <-].
  change ver_output_regex
    with ([ Open 1; Plus (Union word (Lit " ")); Close 1; Atom (Lit " ");
            Open 2; Plus (Union word (Lit ".")); Close 2; Atom (Lit " ");
            Star Dot; Atom (Lit "["); Star Dot; Atom (Lit " ") ]
          ++ [Open 3; Plus (Union digit (Lit ".")); Close 3; Atom (Lit "]")])
    in Match.
  apply exec_tail in Match. destruct Match as (s1 & s2 & m2 & -> & Match).
  apply exec_build_token in Match.
  destruct Match as (g & -> & NonEmpty & All & Group).
  change (0 + String.length s1) with (String.length s1) in Group.
  unfold sub. cbn [registers subject]. rewrite Group.
  replace (String.length s1 + String.length g - String.length s1)
    with (String.length g) by lia.
  rewrite StrFacts.substring_at. auto.
Qed.

End MatcherSoundness.

Lemma prefix_empty (s : string) : String.prefix EmptyString s = true.
Proof. destruct s; reflexivity. Qed.

Lemma prefix_char (a c : ascii) (rest : string) :
  String.prefix (String a EmptyString) (String c rest)
  = if ascii_dec a c then true else false.
Proof.
  cbn [String.prefix]. destruct (ascii_dec a c); [apply prefix_empty | reflexivity].
Qed.

(** Cut at the dots, a run of digits and dots falls into runs of digits. *)
Lemma split_digits (input : string) :
  forall cur,
    Str.forallb version_char input = true ->
    Str.forallb Chars.isdigit cur = true ->
    Forall (fun e => Str.forallb Chars.isdigit e = true)
      (split_from "." 0 input cur).
Proof.
  induction input as [|c rest IH]; intros cur All Cur; cbn [split_from].
  - constructor; [exact Cur | constructor].
  - simpl in All. apply andb_true_iff in All. destruct All as [Hc All].
    rewrite prefix_char. change (String.length "." - 1) with 0.
    destruct (ascii_dec "." c) as [<- | NotDot].
    + constructor; [exact Cur|]. now apply IH.
    + apply IH; [exact All|].
      rewrite StripFacts.forallb_app, Cur. simpl. rewrite andb_true_r.
      unfold version_char in Hc. apply orb_true_iff in Hc.
      destruct Hc as [Digit | Dot]; [exact Digit|].
      apply Ascii.eqb_eq in Dot. congruence.
Qed.

(** X23.  Without an override, and as long as a [ver] output that
    matches the pattern has a third group of at least three dot-separated
    components (the case the code indexes without a check), every call of
    [windows_version] returns a value, and that value is the empty string
    or three runs of digits joined by two dots (the sentinel "0.0.0" is of
    this kind): whatever the banner of [ver] says around it, no other
    character reaches the caller. *)
Theorem windows_version_shape (h : Host) (s : State) :
  env_value s "CONDA_OVERRIDE_WIN" = EmptyString ->
  (os h = Windows ->
   ec (reproc_run h [env_value s "COMSPEC"; "/c"; "ver"]) = None ->
   forall rmatch,
     regex_match ver_output_regex
       (strip (out (reproc_run h [env_value s "COMSPEC"; "/c"; "ver"])))
     = Some rmatch ->
     3 <= List.length (split (sub rmatch 3) ".")) ->
  exists v,
    outcome (windows_version h s) = Ret v
    /\ (v = EmptyString
        \/ exists e0 e1 e2,
            Str.forallb Chars.isdigit e0 = true
            /\ Str.forallb Chars.isdigit e1 = true
            /\ Str.forallb Chars.isdigit e2 = true
            /\ v = (e0 ++ "." ++ e1 ++ "." ++ e2)%string).
Proof.
  intros E Three.
  destruct (os_family_eq_dec (os h) Windows) as [Win | Other].
  - destruct (ec (reproc_run h [env_value s "COMSPEC"; "/c"; "ver"]))
      as [message|] eqn:Error.
    + exists EmptyString. split; [|auto].
      apply (windows_run_fails h s message E Win Error).
    + specialize (Three Win eq_refl).
      rewrite (windows_version_parses h s
                 (out (reproc_run h [env_value s "COMSPEC"; "/c"; "ver"])) E Win)
        by (split; [exact Error | reflexivity]).
      destruct (regex_match ver_output_regex _) as [rmatch|] eqn:Match.
      * destruct (ver_output_build_token _ _ Match) as (_ & Token).
        pose proof (split_digits (sub rmatch 3) EmptyString Token eq_refl) as Parts.
        fold (split (sub rmatch 3) ".") in Parts.
        specialize (Three rmatch eq_refl).
        destruct (split (sub rmatch 3) ".") as [|e0 [|e1 [|e2 rest]]];
          try (simpl in Three; lia).
        eexists. split; [reflexivity|]. right. exists e0, e1, e2.
        inversion Parts as [|? ? D0 Parts1]; subst.
        inversion Parts1 as [|? ? D1 Parts2]; subst.
        inversion Parts2 as [|? ? D2 _]; subst.
        repeat split; assumption.
      * eexists. split; [reflexivity|]. right. exists "0", "0", "0". repeat split.
  - exists EmptyString. split; [|auto].
    now rewrite (windows_elsewhere h s E Other).
Qed.

Lemma windows_version_shape_witness :
  let h := plain_host Windows "Microsoft Windows [Version 10.0.22631.3447]" in
  exists v,
    outcome (windows_version h (fresh no_env)) = Ret v
    /\ (v = EmptyString
        \/ exists e0 e1 e2,
            Str.forallb Chars.isdigit e0 = true
            /\ Str.forallb Chars.isdigit e1 = true
            /\ Str.forallb Chars.isdigit e2 = true
            /\ v = (e0 ++ "." ++ e1 ++ "." ++ e2)%string).
Proof.
  intros h.
  apply (windows_version_shape h (fresh no_env) eq_refl).
  intros _ _ rmatch Match. vm_compute in Match. injection Match as <-.
  vm_compute. lia.
Defined.
